(** * Convenience-store ordering system: the order-recommendation screen
      and the reorder pipeline it talks to.

    The repository's TypeScript front end is embedded function by function
    (components [OrderRecommendations], [Dashboard], [ChatInterface] and
    [OrderHistory]).  JavaScript numbers are integers here ([Z]), which is
    what doubles are for whole numbers up to 2^53 in size: ids, quantities
    and stock levels, and amounts in won.  A statement that would not
    survive rounding (a price with decimals, a sum taken in another order
    than the code takes it) is not made.  [NaN] only arises from
    [parseInt], which is modelled with an [option].  Strings are the bytes
    of their UTF-8 encoding.  React state is an explicit record threaded
    through the handlers; a handler that awaits the server takes the
    server's answer as an argument and runs atomically.

    The Python back end (the pipeline stages, the lifecycle manager and the
    scheduler) is not among the sources; the parts of it that are needed are
    modelled from the specification and marked as such. *)

From stdpp Require Import base numbers option list strings gmap.
From Stdlib Require Import ZArith QArith Qabs Lia Ascii.

Local Open Scope Z_scope.

(* ===================================================================== *)
(** * Part I.  Definitions                                                *)
(* ===================================================================== *)

(** ** JavaScript helpers used by the components *)

Module Js.

(** White space as [parseInt] and [trim] see it (WhiteSpace and
    LineTerminator of the language): the ASCII characters 9 to 13 and 32,
    and, in UTF-8, U+00A0, U+1680, U+2000 to U+200A, U+2028, U+2029,
    U+202F, U+205F, U+3000 and U+FEFF. *)
Definition isWhiteSpace (c : ascii) : bool :=
  let n := nat_of_ascii c in
  ((9 <=? n) && (n <=? 13))%nat || (n =? 32)%nat.

Definition twoByteWhiteSpace (c1 c2 : ascii) : bool :=
  ((nat_of_ascii c1 =? 194) && (nat_of_ascii c2 =? 160))%nat.

Definition threeByteWhiteSpace (c1 c2 c3 : ascii) : bool :=
  let n1 := nat_of_ascii c1 in
  let n2 := nat_of_ascii c2 in
  let n3 := nat_of_ascii c3 in
  ((n1 =? 225) && (n2 =? 154) && (n3 =? 128)
   || (n1 =? 226) && (n2 =? 128)
      && ((128 <=? n3) && (n3 <=? 138)
          || (n3 =? 168) || (n3 =? 169) || (n3 =? 175))
   || (n1 =? 226) && (n2 =? 129) && (n3 =? 159)
   || (n1 =? 227) && (n2 =? 128) && (n3 =? 128)
   || (n1 =? 239) && (n2 =? 187) && (n3 =? 191))%nat.

Fixpoint trimStart (s : string) : string :=
  match s with
  | String c1 s1 =>
      if isWhiteSpace c1 then trimStart s1
      else
        match s1 with
        | String c2 s2 =>
            if twoByteWhiteSpace c1 c2 then trimStart s2
            else
              match s2 with
              | String c3 s3 =>
                  if threeByteWhiteSpace c1 c2 c3 then trimStart s3 else s
              | EmptyString => s
              end
        | EmptyString => s
        end
  | EmptyString => s
  end.

Definition digitValue (c : ascii) : option Z :=
  let n := Z.of_nat (nat_of_ascii c) in
  if (48 <=? n) && (n <=? 57) then Some (n - 48)
  else if (97 <=? n) && (n <=? 122) then Some (n - 97 + 10)
  else if (65 <=? n) && (n <=? 90) then Some (n - 65 + 10)
  else None.

(** [parseInt(s)] without a radix.  [None] stands for [NaN].  Leading
    white space is skipped, one sign is read, a [0x]/[0X] prefix selects
    base 16, and the longest prefix of digits is converted; no digit at
    all gives [NaN].  The result is the integer the digits spell: the
    builtin returns the nearest double, which is that integer up to 2^53
    in size and has its sign in every case.

    [parseDigits] reads digits of base [R] from the left; [acc] is [None]
    until the first digit has been seen. *)
Fixpoint parseDigits (R : Z) (acc : option Z) (s : string) : option Z :=
  match s with
  | String c s' =>
      match digitValue c with
      | Some d =>
          if d <? R then parseDigits R (Some (default 0 acc * R + d)) s'
          else acc
      | None => acc
      end
  | EmptyString => acc
  end.

Definition parseInt (input : string) : option Z :=
  let inputString := trimStart input in
  let '(sign, unsigned) :=
    match inputString with
    | String "-" rest => (-1, rest)
    | String "+" rest => (1, rest)
    | _ => (1, inputString)
    end in
  let '(R, digits) :=
    match unsigned with
    | String "0" (String "x" rest) => (16, rest)
    | String "0" (String "X" rest) => (16, rest)
    | _ => (10, unsigned)
    end in
  match parseDigits R None digits with
  | Some mathInt => Some (sign * mathInt)
  | None => None
  end.

(** White space dropped from the front of a reversed string: the last byte
    of a character comes first. *)
Fixpoint dropWhileWhiteSpace (l : list ascii) : list ascii :=
  match l with
  | c :: l1 =>
      if isWhiteSpace c then dropWhileWhiteSpace l1
      else
        match l1 with
        | b :: l2 =>
            if twoByteWhiteSpace b c then dropWhileWhiteSpace l2
            else
              match l2 with
              | a :: l3 =>
                  if threeByteWhiteSpace a b c then dropWhileWhiteSpace l3
                  else l
              | [] => l
              end
        | [] => l
        end
  | [] => []
  end.

(** [s.trim()]: white space is removed at both ends. *)
Definition trimEnd (s : string) : string :=
  String.string_of_list_ascii
    (rev (dropWhileWhiteSpace (rev (String.list_ascii_of_string s)))).

Definition trim (s : string) : string := trimEnd (trimStart s).

(** [!s] on a string: only the empty string is falsy. *)
Definition emptyString (s : string) : bool :=
  match s with
  | EmptyString => true
  | String _ _ => false
  end.

(** [x || 0] on a number: [NaN] and zero are falsy. *)
Definition orZero (x : option Z) : Z :=
  match x with
  | Some n => n
  | None => 0
  end.

(** [!x] for [x : number | null]: [null] and [0] are falsy. *)
Definition falsy (x : option Z) : bool :=
  match x with
  | Some n => n =? 0
  | None => true
  end.

End Js.

(** ** components/OrderRecommendations.tsx *)

(** The interfaces [OrderItem] and [OrderRecommendation].  Every numeric
    field is a [number] in the source; the statements below use of prices
    and costs only the product [unit_price * quantity] and the sum
    [sum + total_cost], each as the code writes it. *)

Module OrderItem.
Record t := mk {
  id : Z;
  product_name : string;
  current_stock : Z;
  safe_stock : Z;
  order_quantity : Z;
  unit_price : Z;
  total_cost : Z;
  reason : string;
  priority : string
}.
End OrderItem.

Module OrderRecommendation.
Record t := mk {
  id : Z;
  recommendation_date : string;
  total_items : Z;
  total_cost : Z;
  created_at : string;
  status : string
}.
End OrderRecommendation.

Module OrderRecommendations.

(** The component's [useState] cells. *)
Record State := mkState {
  orders : list OrderRecommendation.t;
  selectedOrderId : option Z;
  orderItems : list OrderItem.t;
  loading : bool;
  isItemsLoading : bool;
  isGenerating : bool;
  expandedItems : gset Z;
  hasChanges : bool;
  showExecuteModal : bool
}.

Definition setOrders v (st : State) : State :=
  mkState v (selectedOrderId st) (orderItems st) (loading st)
    (isItemsLoading st) (isGenerating st) (expandedItems st)
    (hasChanges st) (showExecuteModal st).
Definition setSelectedOrderId v (st : State) : State :=
  mkState (orders st) v (orderItems st) (loading st)
    (isItemsLoading st) (isGenerating st) (expandedItems st)
    (hasChanges st) (showExecuteModal st).
Definition setOrderItems v (st : State) : State :=
  mkState (orders st) (selectedOrderId st) v (loading st)
    (isItemsLoading st) (isGenerating st) (expandedItems st)
    (hasChanges st) (showExecuteModal st).
Definition setLoading v (st : State) : State :=
  mkState (orders st) (selectedOrderId st) (orderItems st) v
    (isItemsLoading st) (isGenerating st) (expandedItems st)
    (hasChanges st) (showExecuteModal st).
Definition setIsItemsLoading v (st : State) : State :=
  mkState (orders st) (selectedOrderId st) (orderItems st) (loading st)
    v (isGenerating st) (expandedItems st)
    (hasChanges st) (showExecuteModal st).
Definition setIsGenerating v (st : State) : State :=
  mkState (orders st) (selectedOrderId st) (orderItems st) (loading st)
    (isItemsLoading st) v (expandedItems st)
    (hasChanges st) (showExecuteModal st).
Definition setExpandedItems v (st : State) : State :=
  mkState (orders st) (selectedOrderId st) (orderItems st) (loading st)
    (isItemsLoading st) (isGenerating st) v
    (hasChanges st) (showExecuteModal st).
Definition setHasChanges v (st : State) : State :=
  mkState (orders st) (selectedOrderId st) (orderItems st) (loading st)
    (isItemsLoading st) (isGenerating st) (expandedItems st)
    v (showExecuteModal st).
Definition setShowExecuteModal v (st : State) : State :=
  mkState (orders st) (selectedOrderId st) (orderItems st) (loading st)
    (isItemsLoading st) (isGenerating st) (expandedItems st)
    (hasChanges st) v.

(** The state on mount: [loading] starts true, nothing is selected. *)
Definition initialState : State :=
  mkState [] None [] true false false ∅ false false.

(** [loadOrders]: [resp] is [Some orders] when the fetch answered with an
    ok status ([data.orders || []] already applied), [None] when it threw
    or the status was not ok (the catch branch only shows a toast). *)
Definition loadOrders (resp : option (list OrderRecommendation.t))
    (st : State) : State :=
  let st := setLoading true st in
  let st := match resp with
            | Some data => setOrders data st
            | None => st
            end in
  setLoading false st.

(** [loadOrderItems]: the status is not inspected; [resp] is [Some items]
    for any answer that parsed ([data.items || []] applied) and [None]
    when the fetch threw, in which case the list is emptied. *)
Definition loadOrderItems (orderId : Z)
    (resp : option (list OrderItem.t)) (st : State) : State :=
  let st := setIsItemsLoading true st in
  let st := setSelectedOrderId (Some orderId) st in
  let st := setHasChanges false st in
  let st := match resp with
            | Some items => setOrderItems items st
            | None => setOrderItems [] st
            end in
  setIsItemsLoading false st.

(** The body of the [map] callback in [updateQuantity]. *)
Definition updateItem (itemId newQuantity : Z) (item : OrderItem.t)
    : OrderItem.t :=
  if OrderItem.id item =? itemId then
    let newTotalCost := OrderItem.unit_price item * newQuantity in
    OrderItem.mk (OrderItem.id item) (OrderItem.product_name item)
      (OrderItem.current_stock item) (OrderItem.safe_stock item)
      newQuantity (OrderItem.unit_price item) newTotalCost
      (OrderItem.reason item) (OrderItem.priority item)
  else item.

Definition updateQuantity (itemId newQuantity : Z) (st : State) : State :=
  if newQuantity <? 0 then st
  else
    let st := setOrderItems (updateItem itemId newQuantity <$> orderItems st) st in
    setHasChanges true st.

(** The three places the table calls [updateQuantity] from: the minus
    button, the number field and the plus button of a row. *)
Definition onMinusClick (item : OrderItem.t) (st : State) : State :=
  updateQuantity (OrderItem.id item)
    (Z.max 0 (OrderItem.order_quantity item - 1)) st.

Definition onQuantityChange (item : OrderItem.t) (value : string)
    (st : State) : State :=
  updateQuantity (OrderItem.id item) (Js.orZero (Js.parseInt value)) st.

Definition onPlusClick (item : OrderItem.t) (st : State) : State :=
  updateQuantity (OrderItem.id item) (OrderItem.order_quantity item + 1) st.

(** [saveQuantityChanges]: one PUT per item; [putsOk] is false when one of
    them threw (the status of an answer is not inspected).  On success the
    flag is cleared and both lists are reloaded. *)
Definition saveQuantityChanges (putsOk : bool)
    (ordersResp : option (list OrderRecommendation.t))
    (itemsResp : option (list OrderItem.t)) (st : State) : State :=
  match selectedOrderId st with
  | Some selected =>
      if Js.falsy (Some selected) then st
      else if putsOk then
        let st := setHasChanges false st in
        let st := loadOrders ordersResp st in
        loadOrderItems selected itemsResp st
      else st
  | None => st
  end.

(** [generateNewRecommendation]: [ok] is [Some true] for an ok status,
    [Some false] for any other status and [None] when the fetch threw.
    Only an ok status reloads the list; the flag is cleared in every case. *)
Definition generateNewRecommendation (ok : option bool)
    (ordersResp : option (list OrderRecommendation.t)) (st : State)
    : State :=
  let st := setIsGenerating true st in
  let st := match ok with
            | Some true => loadOrders ordersResp st
            | _ => st
            end in
  setIsGenerating false st.

(** The POST that [executeOrder] sends, if any: only the id travels. *)
Definition executeRequest (st : State) : option Z :=
  if Js.falsy (selectedOrderId st) then None else selectedOrderId st.

(** [executeOrder]: [ok] is true when the server answered with an ok
    status; otherwise (or when the fetch threw) only a toast is shown. *)
Definition executeOrder (ok : bool)
    (ordersResp : option (list OrderRecommendation.t)) (st : State)
    : State :=
  if Js.falsy (selectedOrderId st) then st
  else if ok then
    let st := setShowExecuteModal false st in
    loadOrders ordersResp st
  else st.

Definition handleExecuteClick (st : State) : State :=
  if hasChanges st then st
  else setShowExecuteModal true st.

Definition toggleItemDetail (itemId : Z) (st : State) : State :=
  let newSet := expandedItems st in
  let newSet := if decide (itemId ∈ newSet) then newSet ∖ {[itemId]}
                else newSet ∪ {[itemId]} in
  setExpandedItems newSet st.

(** Values computed on every render. *)
Definition selectedOrder (st : State) : option OrderRecommendation.t :=
  match selectedOrderId st with
  | Some sel => List.find (fun o => OrderRecommendation.id o =? sel) (orders st)
  | None => None
  end.

Definition totalCost (st : State) : Z :=
  fold_left (fun sum item => sum + OrderItem.total_cost item) (orderItems st) 0.

(** [orderItems.length], shown in the table footer and in the dialog. *)
Definition itemCount (st : State) : Z := Z.of_nat (length (orderItems st)).

(** The shortage shown in a row's detail panel. *)
Definition shortfall (item : OrderItem.t) : Z :=
  Z.max 0 (OrderItem.safe_stock item - OrderItem.current_stock item).

(** An item whose total is its quantity times its unit price. *)
Definition consistent (item : OrderItem.t) : Prop :=
  OrderItem.total_cost item
  = OrderItem.order_quantity item * OrderItem.unit_price item.

(** [disabled={hasChanges}] on the execute button. *)
Definition executeButtonDisabled (st : State) : bool := hasChanges st.

(** The confirmation dialog is rendered under
    [showExecuteModal && selectedOrder]. *)
Definition executeModalShown (st : State) : bool :=
  showExecuteModal st && bool_decide (is_Some (selectedOrder st)).

(** The colour of the priority badge in the detail panel. *)
Inductive Badge := Red | Amber | Green.

Definition priorityBadge (item : OrderItem.t) : Badge :=
  if String.eqb (OrderItem.priority item) "high" then Red
  else if String.eqb (OrderItem.priority item) "medium" then Amber
  else Green.

(** *** The screen as a transition system

    One event per handler the rendered page can call, with the server's
    answers as arguments. *)
Inductive Event :=
| Refresh (resp : option (list OrderRecommendation.t))
| SelectOrder (order : OrderRecommendation.t)
    (resp : option (list OrderItem.t))
| MinusClick (item : OrderItem.t)
| QuantityChange (item : OrderItem.t) (value : string)
| PlusClick (item : OrderItem.t)
| ToggleDetail (item : OrderItem.t)
| Save (putsOk : bool) (ordersResp : option (list OrderRecommendation.t))
    (itemsResp : option (list OrderItem.t))
| Generate (ok : option bool)
    (ordersResp : option (list OrderRecommendation.t))
| ExecuteClick
| ConfirmExecute (ok : bool)
    (ordersResp : option (list OrderRecommendation.t))
| DismissModal.

Definition step (e : Event) (st : State) : State :=
  match e with
  | Refresh resp => loadOrders resp st
  | SelectOrder order resp =>
      loadOrderItems (OrderRecommendation.id order) resp st
  | MinusClick item => onMinusClick item st
  | QuantityChange item value => onQuantityChange item value st
  | PlusClick item => onPlusClick item st
  | ToggleDetail item => toggleItemDetail (OrderItem.id item) st
  | Save putsOk ordersResp itemsResp =>
      saveQuantityChanges putsOk ordersResp itemsResp st
  | Generate ok ordersResp => generateNewRecommendation ok ordersResp st
  | ExecuteClick => handleExecuteClick st
  | ConfirmExecute ok ordersResp => executeOrder ok ordersResp st
  | DismissModal => setShowExecuteModal false st
  end.

Definition run (evs : list Event) (st : State) : State :=
  foldl (fun st e => step e st) st evs.

(** What the JSX renders in a state, hence which handlers can fire.
    [Refresh] also stands for the effect that runs on mount. *)
Definition tableRendered (st : State) : Prop :=
  loading st = false ∧ orders st ≠ [] ∧ isItemsLoading st = false.

Definition headerButtonsRendered (st : State) : Prop :=
  loading st = false ∧ orders st ≠ [] ∧ is_Some (selectedOrder st).

Definition Enabled (e : Event) (st : State) : Prop :=
  match e with
  | Refresh _ => True
  | SelectOrder order _ =>
      loading st = false ∧ order ∈ orders st
  | MinusClick item | QuantityChange item _ | PlusClick item
  | ToggleDetail item =>
      tableRendered st ∧ item ∈ orderItems st
  | Save _ _ _ => headerButtonsRendered st ∧ hasChanges st = true
  | Generate _ _ => loading st = false ∧ isGenerating st = false
  | ExecuteClick =>
      headerButtonsRendered st ∧ executeButtonDisabled st = false
  | ConfirmExecute _ _ | DismissModal =>
      loading st = false ∧ executeModalShown st = true
  end.

(** A run in which every event was available when it fired. *)
Fixpoint Feasible (evs : list Event) (st : State) : Prop :=
  match evs with
  | [] => True
  | e :: evs => Enabled e st ∧ Feasible evs (step e st)
  end.

(** The execute POST an event sends from a state, if it sends one. *)
Definition executePosted (e : Event) (st : State) : option Z :=
  match e with
  | ConfirmExecute _ _ => executeRequest st
  | _ => None
  end.

(** The items an event brings from the server. *)
Definition itemsFromServer (e : Event) : list OrderItem.t :=
  match e with
  | SelectOrder _ (Some items) | Save _ _ (Some items) => items
  | _ => []
  end.

(** The events that end with [setHasChanges(false)]. *)
Definition clearsHasChanges (e : Event) : bool :=
  match e with
  | SelectOrder _ _ => true
  | Save putsOk _ _ => putsOk
  | _ => false
  end.

Definition isSave (e : Event) : bool :=
  match e with
  | Save _ _ _ => true
  | _ => false
  end.

(** The list of recommendations an event brings from the server. *)
Definition ordersFromServer (e : Event)
    : option (list OrderRecommendation.t) :=
  match e with
  | Refresh resp => resp
  | Save _ ordersResp _ | Generate _ ordersResp
  | ConfirmExecute _ ordersResp => ordersResp
  | _ => None
  end.

(** The ids of the execute POSTs sent along a run, in order. *)
Fixpoint executePosts (evs : list Event) (st : State) : list Z :=
  match evs with
  | [] => []
  | e :: evs =>
      match executePosted e st with
      | Some id => id :: executePosts evs (step e st)
      | None => executePosts evs (step e st)
      end
  end.

(** An item whose order quantity is not negative. *)
Definition nonNegative (item : OrderItem.t) : Prop :=
  0 ≤ OrderItem.order_quantity item.

(** No spinner is showing and no request of the generate button is
    pending. *)
Definition settled (st : State) : Prop :=
  loading st = false ∧ isItemsLoading st = false ∧ isGenerating st = false.

End OrderRecommendations.

(** ** components/Dashboard.tsx: the sales card *)

Module Dashboard.

Inductive Trend := up | down.

(** The [change] and [trend] fields of the first card, from
    [stats.sales_change] (a percentage computed by the server). *)
Definition changePrefix (sales_change : Q) : string :=
  if Qle_bool 0 sales_change then "+" else "".

Definition trend (sales_change : Q) : Trend :=
  if Qle_bool 0 sales_change then up else down.

(** The data of the dashboard and its [useState] cells.  Percentages and
    the processing speed are rationals, the other numbers integers. *)
Record Stats := mkStats {
  today_sales : Z;
  sales_change : Q;
  pending_orders : Z;
  low_stock_items : Z;
  processing_speed : Q
}.

Record SalesData := mkSalesData {
  date : string;
  sales : Z;
  orders : Z
}.

Record Product := mkProduct {
  name : string;
  product_sales : Z;
  product_trend : Q;
  stock : Z
}.

Record Category := mkCategory {
  category_name : string;
  value : Z;
  color : string
}.

Record State := mkState {
  stats : Stats;
  salesData : list SalesData;
  topProducts : list Product;
  categoryData : list Category;
  loading : bool
}.

Definition initialState : State :=
  mkState (mkStats 0 0 0 0 (6 # 5)) [] [] [] true.

Definition setLoading v (st : State) : State :=
  mkState (stats st) (salesData st) (topProducts st) (categoryData st) v.


(** A row of the top products: the icon, and the percentage printed next
    to it, [Math.abs(product.trend)]. *)
Definition productTrendIcon (p : Product) : Trend :=
  if Qle_bool 0 (product_trend p) then up else down.

Definition productTrendShown (p : Product) : Q :=
  Qabs (product_trend p).

End Dashboard.

(** ** components/ChatInterface.tsx *)

Module ChatInterface.

Inductive Sender := user | ai.

Record Message := mkMessage {
  id : string;
  sender : Sender;
  content : string;
  timestamp : Z
}.

Record State := mkState {
  messages : list Message;
  input : string;
  isLoading : bool
}.

Definition setMessages v (st : State) : State :=
  mkState v (input st) (isLoading st).
Definition setInput v (st : State) : State :=
  mkState (messages st) v (isLoading st).
Definition setIsLoading v (st : State) : State :=
  mkState (messages st) (input st) v.

(** [initialMessages]; [now] is the time the module was loaded. *)
Definition initialMessages (now : Z) : list Message :=
  [mkMessage "1" ai
     "안녕하세요! 편의점 AI 발주 어시스턴트입니다. 재고 관리, 판매 분석, 발주 추천 등을 도와드릴게요. 무엇을 도와드릴까요?"
     now].

Definition initialState (now : Z) : State :=
  mkState (initialMessages now) "" false.

(** [handleSend].  [stamp] is the text of [Date.now()] when the message is
    built and [now] its time; [reply] is [Some (response, replyStamp,
    replyTime)] when the server answered with an ok status and [None] when
    the request failed, in which case the message is taken out again. *)
Definition handleSend (stamp : string) (now : Z)
    (reply : option (string * string * Z)) (st : State) : State :=
  if Js.emptyString (Js.trim (input st)) || isLoading st then st
  else
    let userMessage := mkMessage stamp user (input st) now in
    let st := setMessages (messages st ++ [userMessage]) st in
    let st := setInput "" st in
    let st := setIsLoading true st in
    let st :=
      match reply with
      | Some (response, replyStamp, replyTime) =>
          let aiMessage :=
            mkMessage (replyStamp ++ "-ai") ai response replyTime in
          setMessages (messages st ++ [aiMessage]) st
      | None =>
          setMessages
            (filter (fun m => id m ≠ id userMessage) (messages st)) st
      end in
    setIsLoading false st.

(** What the user can do: type (or pick a suggested question) and send. *)
Inductive Event :=
| Type_ (text : string)
| Send (stamp : string) (now : Z) (reply : option (string * string * Z)).

Definition step (e : Event) (st : State) : State :=
  match e with
  | Type_ text => setInput text st
  | Send stamp now reply => handleSend stamp now reply st
  end.

Definition run (evs : list Event) (st : State) : State :=
  foldl (fun st e => step e st) st evs.

(** A run in which every message is built with an id no message on the
    screen has. *)
Fixpoint FreshStamps (evs : list Event) (st : State) : Prop :=
  match evs with
  | [] => True
  | e :: evs =>
      match e with
      | Send stamp _ _ => Forall (fun m => id m ≠ stamp) (messages st)
      | Type_ _ => True
      end
      ∧ FreshStamps evs (step e st)
  end.

(** A greeting followed by questions, each with its answer. *)
Definition alternating (senders : list Sender) : Prop :=
  ∃ n, senders = ai :: concat (replicate n [user; ai]).

End ChatInterface.

(** ** components/OrderHistory.tsx: the daily chart *)

Module OrderHistory.

Record DailyData := mkDailyData {
  date : string;
  cost : Z;
  count : Z
}.

(** [Math.max(...xs)]; [None] stands for [-Infinity], the maximum of no
    number. *)
Definition mathMax (xs : list Z) : option Z :=
  foldr (fun x acc =>
           match acc with
           | Some m => Some (Z.max x m)
           | None => Some x
           end) None xs.

(** The height of the bar of [day], in percent of the chart (an exact
    quotient here). *)
Definition heightPercent (daily_data : list DailyData) (day : DailyData)
    : Q :=
  match mathMax (cost <$> daily_data) with
  | Some maxCost =>
      if 0 <? maxCost
      then (inject_Z (cost day) / inject_Z maxCost * 100)%Q
      else 0%Q
  | None => 0%Q
  end.

(** [minHeight], in pixels. *)
Definition minHeight (day : DailyData) : Z :=
  if 0 <? cost day then 4 else 0.

End OrderHistory.

(** ** The back end, from the specification

    The pipeline stages, the lifecycle manager and the scheduler belong to
    the Python back end (convenience-store-backend), which is not among the
    sources.  Every definition below is written from the specification. *)

Module AnalysisStage.

(** Modelled from the spec: the SalesRecord of section 3 (the back end's
    tables are missing).  Dates are day numbers. *)
Record SalesRecord := mkSalesRecord {
  product_id : Z;
  quantity_sold : Z;
  sale_price : Z;
  sale_date : Z
}.

(** Modelled from the spec: the date window of section 4.1 (the analysis
    stage is missing); the most recent day is the last day of the window. *)
Record Window := mkWindow { end_date : Z; days : Z }.

(** Modelled from the spec: the sales of one day (the analysis stage is
    missing), taken as the takings of the records dated that day. *)
Definition daySales (history : list SalesRecord) (day : Z) : Z :=
  foldr (fun r acc =>
           if sale_date r =? day then quantity_sold r * sale_price r + acc
           else acc) 0 history.

(** Modelled from the spec: the analysis stage's delta is missing.
    "% change of most recent day vs prior day; 0% if prior day has zero
    sales, to avoid division-by-zero". *)
Definition percentChange (recent prior : Z) : Q :=
  if prior =? 0 then 0%Q
  else (inject_Z (recent - prior) / inject_Z prior * 100)%Q.

(** Modelled from the spec: the day-over-day sales delta of section 4.1
    (the analysis stage is missing). *)
Definition salesDelta (w : Window) (history : list SalesRecord) : Q :=
  percentChange (daySales history (end_date w))
                (daySales history (end_date w - 1)).

End AnalysisStage.

Module InventoryAssessment.

(** Modelled from the spec: the assessment stage is missing.
    "shortfall = max(0, safe_stock − current_stock)". *)
Definition shortfall (current_stock safe_stock : Z) : Z :=
  Z.max 0 (safe_stock - current_stock).

(** Modelled from the spec: the assessment stage is missing.
    "A product is flagged when shortfall > 0". *)
Definition flagged (current_stock safe_stock : Z) : bool :=
  0 <? shortfall current_stock safe_stock.

End InventoryAssessment.

Module DecisionStage.

Import InventoryAssessment.

(** Modelled from the spec: "priority ∈ {low, medium, high}" (the decision
    stage is missing). *)
Inductive Priority := low | medium | high.

(** Modelled from the spec: the decision stage is missing.  "high when
    current_stock == 0 (stockout); medium when shortfall ≥ 50% of
    safe_stock; low otherwise"; 50% of the safe stock is reached when twice
    the shortfall is at least the safe stock. *)
Definition priority (current_stock safe_stock : Z) : Priority :=
  if current_stock =? 0 then high
  else if safe_stock <=? 2 * shortfall current_stock safe_stock then medium
  else low.

(** Modelled from the spec: the name of a priority as the server sends it
    in [OrderItem.priority] (the serialisation is missing). *)
Definition priorityName (p : Priority) : string :=
  match p with
  | low => "low"
  | medium => "medium"
  | high => "high"
  end.

End DecisionStage.

Module LifecycleManager.

(** Modelled from the spec: the Product of section 3 (the back end's tables
    are missing); the id is the key of the table. *)
Record Product := mkProduct {
  name : string;
  category : string;
  current_stock : Z;
  safe_stock : Z;
  unit_price : Z
}.

(** Modelled from the spec: "status ∈ {pending, executed, cancelled}". *)
Inductive Status := pending | executed | cancelled.

(** Modelled from the spec: the RecommendationItem of section 3. *)
Record RecommendationItem := mkItem {
  product_id : Z;
  current_stock_snapshot : Z;
  safe_stock_snapshot : Z;
  order_quantity : Z;
  unit_price_snapshot : Z;
  item_total_cost : Z;
  priority : DecisionStage.Priority;
  reason : string
}.

(** Modelled from the spec: the Recommendation of section 3; the id is the
    key of the table, times are numbers. *)
Record Recommendation := mkRecommendation {
  recommendation_date : Z;
  created_at : Z;
  status : Status;
  executed_at : option Z;
  items : list RecommendationItem;
  total_items : Z;
  total_cost : Z
}.

(** Modelled from the spec: the persisted state of section 6, "Product
    table, ... Recommendation + RecommendationItem tables keyed by
    Recommendation id". *)
Record Store := mkStore {
  products : gmap Z Product;
  recommendations : gmap Z Recommendation
}.

(** Modelled from the spec: the errors of section 7 that the lifecycle
    manager can report. *)
Inductive Error :=
| InvalidState
| InvalidQuantity
| ReferentialFailure.

Inductive Result (A : Type) :=
| Ok (value : A)
| Err (error : Error).
Arguments Ok {A} value.
Arguments Err {A} error.

(** Modelled from the spec: "increments the corresponding Product's
    current_stock by order_quantity" (the lifecycle manager is missing). *)
Definition receive (quantity : Z) (p : Product) : Product :=
  mkProduct (name p) (category p) (current_stock p + quantity)
    (safe_stock p) (unit_price p).

(** Modelled from the spec: "sets Recommendation.status = executed, sets
    executed_at = now". *)
Definition markExecuted (now : Z) (r : Recommendation) : Recommendation :=
  mkRecommendation (recommendation_date r) (created_at r) executed
    (Some now) (items r) (total_items r) (total_cost r).

(** Modelled from the spec: the test behind ReferentialFailure, "execute()
    references a Product that no longer exists". *)
Definition productExists (ledger : gmap Z Product)
    (it : RecommendationItem) : bool :=
  bool_decide (is_Some (ledger !! product_id it)).

(** Modelled from the spec: the stock increment of one item. *)
Definition addStock (ledger : gmap Z Product) (it : RecommendationItem)
    : gmap Z Product :=
  alter (receive (order_quantity it)) (product_id it) ledger.

(** Modelled from the spec: the lifecycle manager's execute is missing.
    "legal only while pending; atomically, for every item, increments the
    corresponding Product's current_stock by order_quantity, sets status =
    executed, sets executed_at = now"; "a second execute call on an
    already-executed or cancelled Recommendation fails with InvalidState
    and performs no stock mutation"; "If any item's product no longer
    exists, the whole execution fails atomically and status remains
    pending".  The spec names no error for an id that is not in the table;
    it is reported as InvalidState here. *)
Definition execute (now : Z) (recommendation_id : Z) (s : Store)
    : Result Store :=
  match recommendations s !! recommendation_id with
  | Some r =>
      match status r with
      | pending =>
          if forallb (productExists (products s)) (items r) then
            Ok (mkStore
                  (foldl addStock (products s) (items r))
                  (<[recommendation_id := markExecuted now r]>
                     (recommendations s)))
          else Err ReferentialFailure
      | _ => Err InvalidState
      end
  | None => Err InvalidState
  end.

(** Modelled from the spec: the store after a call, "execution failures
    must leave state exactly as before the attempt". *)
Definition after (call : Store → Result Store) (s : Store) : Store :=
  match call s with
  | Ok s' => s'
  | Err _ => s
  end.

(** The quantity a list of items orders of one product. *)
Definition ordered (pid : Z) (its : list RecommendationItem) : Z :=
  foldr (fun it acc =>
           if product_id it =? pid then order_quantity it + acc else acc)
        0 its.

(** The current stock of a product, if it is in the table. *)
Definition stock (s : Store) (pid : Z) : option Z :=
  current_stock <$> products s !! pid.

End LifecycleManager.

Module Scheduler.

(** Modelled from the spec: the PipelineRun marker of section 3 (the
    scheduler is missing). *)
Inductive RunStatus := running | completed | failed.

Record PipelineRun := mkRun {
  run_id : nat;
  started_at : Z;
  run_status : RunStatus
}.

(** Modelled from the spec: "Two trigger sources: a fixed daily time-of-day
    timer, and an explicit on-demand call." *)
Inductive Source := Timer | Manual.

(** Modelled from the spec: how a pipeline run ends, with a recommendation
    to persist, with nothing to order, or with a failure. *)
Inductive Outcome :=
| Decided (recommendation : LifecycleManager.Recommendation)
| EmptyDecision
| Failure.

(** Modelled from the spec: what a trigger is answered. *)
Inductive Reply :=
| Started (run : PipelineRun)
| AlreadyRunning.

(** Modelled from the spec: the process-wide state of section 4.6, as the
    markers of the runs in flight, the next run id, and the
    recommendations created so far. *)
Record State := mkState {
  inFlight : list PipelineRun;
  nextRunId : nat;
  created : list LifecycleManager.Recommendation
}.

Definition idle : State := mkState [] 0%nat [].

(** Modelled from the spec: the scheduler's trigger is missing.  "a second
    concurrent trigger while one run is active is rejected, not queued, and
    reports AlreadyRunning"; the guard is "set on trigger acceptance,
    cleared on every exit path".  A trigger is handled in one step: testing
    and setting the guard is not interleaved with another trigger. *)
Definition trigger (src : Source) (now : Z) (st : State)
    : Reply * State :=
  match inFlight st with
  | [] =>
      let r := mkRun (nextRunId st) now running in
      (Started r, mkState [r] (S (nextRunId st)) (created st))
  | _ :: _ => (AlreadyRunning, st)
  end.

(** Modelled from the spec: the end of a run is missing.  The end of a run
    in flight releases the guard on every outcome and persists a
    recommendation only for a non-empty decision; the end of a run that is
    not in flight changes nothing. *)
Definition finish (id : nat) (o : Outcome) (st : State) : State :=
  if bool_decide (Exists (fun r => run_id r = id) (inFlight st)) then
    mkState (filter (fun r => run_id r ≠ id) (inFlight st))
      (nextRunId st)
      (created st ++ match o with
                     | Decided rec => [rec]
                     | EmptyDecision | Failure => []
                     end)
  else st.

(** What can happen to the scheduler: a trigger arrives or a run ends.
    Concurrent triggers are triggers that arrive, in either order, with no
    run ending in between. *)
Inductive Event :=
| Trigger (src : Source) (now : Z)
| Finish (id : nat) (o : Outcome).

Definition step (e : Event) (st : State) : State :=
  match e with
  | Trigger src now => (trigger src now st).2
  | Finish id o => finish id o st
  end.

Definition run (evs : list Event) (st : State) : State :=
  foldl (fun st e => step e st) st evs.

(** The replies to the triggers of a run, in order. *)
Fixpoint replies (evs : list Event) (st : State) : list Reply :=
  match evs with
  | [] => []
  | Trigger src now :: evs =>
      (trigger src now st).1 :: replies evs (step (Trigger src now) st)
  | e :: evs => replies evs (step e st)
  end.

End Scheduler.

(** ** Sample data used to exercise the statements *)

Module Sample.

Import OrderRecommendations.

Definition cola : OrderItem.t :=
  OrderItem.mk 1 "cola" 0 20 5 100 500 "out of stock" "high".

Definition ramen : OrderItem.t :=
  OrderItem.mk 2 "ramen" 15 20 2 50 100 "below safe stock" "low".

Definition order1 : OrderRecommendation.t :=
  OrderRecommendation.mk 1 "2024-01-01" 2 600 "2024-01-01 06:00" "pending".

(** Recommendation 1 is selected and its two items are loaded. *)
Definition loaded : State :=
  mkState [order1] (Some 1) [cola; ramen] false false false ∅ false false.

(** The same screen with an edit that has not been saved. *)
Definition edited : State := onPlusClick cola loaded.

(** The spec's scenario: product A (stock 0, safe stock 20, price 1000)
    and product B (stock 15, safe stock 20, price 500); item A edited to
    25 before execution. *)
Definition ledger : gmap Z LifecycleManager.Product :=
  <[1 := LifecycleManager.mkProduct "A" "drinks" 0 20 1000]>
    (<[2 := LifecycleManager.mkProduct "B" "snacks" 15 20 500]> ∅).

Definition recommendation : LifecycleManager.Recommendation :=
  LifecycleManager.mkRecommendation 19000 19000 LifecycleManager.pending None
    [LifecycleManager.mkItem 1 0 20 25 1000 25000 DecisionStage.high
       "out of stock";
     LifecycleManager.mkItem 2 15 20 5 500 2500 DecisionStage.low
       "below safe stock"]
    2 27500.

Definition store : LifecycleManager.Store :=
  LifecycleManager.mkStore ledger (<[7 := recommendation]> ∅).

(** Four sales records: 3000 on day 9, 4000 on day 10, nothing on day 11,
    500 on day 12. *)
Definition sales : list AnalysisStage.SalesRecord :=
  [AnalysisStage.mkSalesRecord 1 3 1000 9;
   AnalysisStage.mkSalesRecord 2 4 500 10;
   AnalysisStage.mkSalesRecord 1 2 1000 10;
   AnalysisStage.mkSalesRecord 2 1 500 12].

(** A list in which the server numbered a recommendation 0. *)
Definition order0 : OrderRecommendation.t :=
  OrderRecommendation.mk 0 "2024-01-02" 1 500 "2024-01-02 06:00" "pending".

Definition listed0 : State :=
  mkState [order0; order1] None [] false false false ∅ false false.

Definition order2 : OrderRecommendation.t :=
  OrderRecommendation.mk 2 "2024-01-03" 1 500 "2024-01-03 06:00" "pending".

(** The screen after recommendation 1 was executed and the reloaded list
    came back empty. *)
Definition executed1 : State :=
  step (ConfirmExecute true (Some [])) (step ExecuteClick loaded).

(** Three days of the monthly statistics: nothing, 5000 and 2500. *)
Definition quietDay : OrderHistory.DailyData :=
  OrderHistory.mkDailyData "2024-01-01" 0 0.
Definition busyDay : OrderHistory.DailyData :=
  OrderHistory.mkDailyData "2024-01-02" 5000 2.
Definition halfDay : OrderHistory.DailyData :=
  OrderHistory.mkDailyData "2024-01-03" 2500 1.

End Sample.

(* ===================================================================== *)
(** * Part II.  Properties                                                *)
(* ===================================================================== *)

(** ** Quantity edits on the order screen *)

Module QuantityEdits.

Import OrderRecommendations.

Lemma updateQuantity_negative st itemId newQuantity :
  newQuantity < 0 → updateQuantity itemId newQuantity st = st.
Proof.
  intros Hneg. unfold updateQuantity.
  destruct (Z.ltb_spec newQuantity 0); [reflexivity | lia].
Qed.

Lemma updateQuantity_items st itemId newQuantity :
  0 ≤ newQuantity →
  orderItems (updateQuantity itemId newQuantity st)
  = updateItem itemId newQuantity <$> orderItems st.
Proof.
  intros Hq. unfold updateQuantity.
  destruct (Z.ltb_spec newQuantity 0); [lia | reflexivity].
Qed.

Lemma updateQuantity_sets_hasChanges st itemId newQuantity :
  0 ≤ newQuantity → hasChanges (updateQuantity itemId newQuantity st) = true.
Proof.
  intros Hq. unfold updateQuantity.
  destruct (Z.ltb_spec newQuantity 0); [lia | reflexivity].
Qed.

Lemma updateItem_hit itemId newQuantity item :
  OrderItem.id item = itemId →
  updateItem itemId newQuantity item
  = OrderItem.mk (OrderItem.id item) (OrderItem.product_name item)
      (OrderItem.current_stock item) (OrderItem.safe_stock item)
      newQuantity (OrderItem.unit_price item)
      (OrderItem.unit_price item * newQuantity)
      (OrderItem.reason item) (OrderItem.priority item).
Proof.
  intros Hid. unfold updateItem.
  destruct (Z.eqb_spec (OrderItem.id item) itemId); [reflexivity | contradiction].
Qed.

Lemma updateItem_miss itemId newQuantity item :
  OrderItem.id item ≠ itemId → updateItem itemId newQuantity item = item.
Proof.
  intros Hid. unfold updateItem.
  destruct (Z.eqb_spec (OrderItem.id item) itemId); [contradiction | reflexivity].
Qed.

Lemma updateItem_consistent itemId newQuantity item :
  consistent item → consistent (updateItem itemId newQuantity item).
Proof.
  intros Hc. destruct (decide (OrderItem.id item = itemId)) as [Hid | Hid].
  - rewrite updateItem_hit by assumption. unfold consistent. simpl. lia.
  - rewrite updateItem_miss by assumption. exact Hc.
Qed.

Lemma updateQuantity_lookup st itemId newQuantity i item :
  0 ≤ newQuantity →
  orderItems st !! i = Some item →
  orderItems (updateQuantity itemId newQuantity st) !! i
  = Some (updateItem itemId newQuantity item).
Proof.
  intros Hq Hi. rewrite updateQuantity_items by assumption.
  rewrite list_lookup_fmap, Hi. reflexivity.
Qed.

(** C1.  After [updateQuantity(itemId, newQuantity)] with a non-negative
    quantity, every position of the list still holds an item; if the item
    that stood there has id [itemId], the new one has order quantity
    [newQuantity], the old unit price and total cost
    [unit_price * newQuantity], which is its order quantity times its unit
    price; and an item whose total was its quantity times its unit price
    before the edit is so after it: no total is left stale. *)
Theorem updateQuantity_total_cost
    (st : State) (itemId newQuantity : Z) (i : nat) (item : OrderItem.t) :
  0 ≤ newQuantity →
  orderItems st !! i = Some item →
  ∃ item',
    orderItems (updateQuantity itemId newQuantity st) !! i = Some item'
    ∧ (OrderItem.id item = itemId →
       OrderItem.order_quantity item' = newQuantity
       ∧ OrderItem.unit_price item' = OrderItem.unit_price item
       ∧ OrderItem.total_cost item' = OrderItem.unit_price item' * newQuantity
       ∧ OrderItem.total_cost item'
         = OrderItem.order_quantity item' * OrderItem.unit_price item')
    ∧ (consistent item → consistent item').
Proof.
  intros Hq Hi.
  exists (updateItem itemId newQuantity item).
  split; [apply updateQuantity_lookup; assumption |].
  split; [| apply updateItem_consistent].
  intros Hid. rewrite updateItem_hit by assumption. simpl.
  repeat split; lia.
Qed.

(** Edits keep every consistent total consistent. *)
Lemma updateQuantity_preserves_consistent st itemId newQuantity :
  Forall consistent (orderItems st) →
  Forall consistent (orderItems (updateQuantity itemId newQuantity st)).
Proof.
  intros Hall. destruct (Z.lt_ge_cases newQuantity 0) as [Hneg | Hq].
  - rewrite updateQuantity_negative by assumption. exact Hall.
  - rewrite updateQuantity_items by assumption.
    apply Forall_fmap. eapply Forall_impl; [exact Hall |].
    intros item Hc. apply updateItem_consistent, Hc.
Qed.

(** Consistent totals are an invariant of the screen: whatever the user
    does, the totals stay consistent as long as the server sends consistent
    ones. *)
Lemma step_preserves_consistent e st :
  Forall consistent (itemsFromServer e) →
  Forall consistent (orderItems st) →
  Forall consistent (orderItems (step e st)).
Proof.
  intros Hserver Hall. destruct e; simpl in *;
    try (apply updateQuantity_preserves_consistent; exact Hall);
    try exact Hall.
  - destruct resp; exact Hall.
  - destruct resp; [exact Hserver | constructor].
  - unfold saveQuantityChanges.
    destruct (selectedOrderId st) as [selected |]; [| exact Hall].
    destruct (Js.falsy (Some selected)); [exact Hall |].
    destruct putsOk; [| exact Hall].
    destruct itemsResp, ordersResp; simpl; first [exact Hserver | constructor].
  - destruct ok as [[|] |]; try exact Hall. destruct ordersResp; exact Hall.
  - unfold handleExecuteClick. destruct (hasChanges st); exact Hall.
  - unfold executeOrder. destruct (Js.falsy (selectedOrderId st)); [exact Hall |].
    destruct ok; [| exact Hall]. destruct ordersResp; exact Hall.
Qed.

(** X4.  Consistent totals are kept by every run of the screen: if every
    item shown has a total equal to its quantity times its unit price and
    the server only sends such items, then after any sequence of handlers
    every item shown still has. *)
Lemma run_preserves_consistent evs st :
  Forall (fun e => Forall consistent (itemsFromServer e)) evs →
  Forall consistent (orderItems st) →
  Forall consistent (orderItems (run evs st)).
Proof.
  revert st. induction evs as [| e evs IH]; intros st Hevs Hall; simpl.
  - exact Hall.
  - inversion Hevs as [| ? ? He Hrest]; subst.
    apply IH; [exact Hrest |]. apply step_preserves_consistent; assumption.
Qed.

(** C9.  [updateQuantity(itemId, newQuantity)] with a non-negative
    quantity keeps the length and the order of the list; an item whose id
    differs from [itemId] is unchanged, and an item whose id is [itemId]
    keeps its id, product name, current stock, safe stock, unit price,
    reason and priority. *)
Theorem updateQuantity_frame
    (st : State) (itemId newQuantity : Z) (i : nat) (item : OrderItem.t) :
  0 ≤ newQuantity →
  orderItems st !! i = Some item →
  length (orderItems (updateQuantity itemId newQuantity st))
  = length (orderItems st)
  ∧ ∃ item',
      orderItems (updateQuantity itemId newQuantity st) !! i = Some item'
      ∧ (OrderItem.id item ≠ itemId → item' = item)
      ∧ OrderItem.id item' = OrderItem.id item
      ∧ OrderItem.product_name item' = OrderItem.product_name item
      ∧ OrderItem.current_stock item' = OrderItem.current_stock item
      ∧ OrderItem.safe_stock item' = OrderItem.safe_stock item
      ∧ OrderItem.unit_price item' = OrderItem.unit_price item
      ∧ OrderItem.reason item' = OrderItem.reason item
      ∧ OrderItem.priority item' = OrderItem.priority item.
Proof.
  intros Hq Hi.
  split; [rewrite updateQuantity_items by assumption; apply length_fmap |].
  exists (updateItem itemId newQuantity item).
  split; [apply updateQuantity_lookup; assumption |].
  split; [intros Hne; apply updateItem_miss, Hne |].
  destruct (decide (OrderItem.id item = itemId)) as [Hid | Hid].
  - rewrite updateItem_hit by assumption. simpl. repeat split.
  - rewrite updateItem_miss by assumption. repeat split.
Qed.

(** The rest of the screen's state is left alone by an edit, the list of
    recommendations with its server-side totals included. *)
Lemma updateQuantity_frame_state st itemId newQuantity :
  let st' := updateQuantity itemId newQuantity st in
  orders st' = orders st
  ∧ selectedOrderId st' = selectedOrderId st
  ∧ expandedItems st' = expandedItems st
  ∧ showExecuteModal st' = showExecuteModal st
  ∧ loading st' = loading st
  ∧ isItemsLoading st' = isItemsLoading st
  ∧ isGenerating st' = isGenerating st.
Proof.
  unfold updateQuantity. destruct (newQuantity <? 0); repeat split.
Qed.

End QuantityEdits.

Module QuantityEditsWitnesses.

Import OrderRecommendations QuantityEdits.

Lemma updateQuantity_total_cost_witness :
  0 ≤ 7
  ∧ orderItems Sample.loaded !! 0%nat = Some Sample.cola
  ∧ ∃ item',
      orderItems (updateQuantity 1 7 Sample.loaded) !! 0%nat = Some item'
      ∧ OrderItem.order_quantity item' = 7
      ∧ OrderItem.total_cost item' = OrderItem.unit_price item' * 7
      ∧ consistent item'.
Proof.
  split; [lia |]. split; [reflexivity |].
  destruct (updateQuantity_total_cost Sample.loaded 1 7 0 Sample.cola)
    as (item' & Hi & Hedited & Hkept); [lia | reflexivity |].
  exists item'. split; [exact Hi |].
  destruct (Hedited eq_refl) as (Hq & _ & Htotal & _).
  split; [exact Hq |]. split; [exact Htotal |].
  apply Hkept. reflexivity.
Defined.

Lemma updateQuantity_frame_witness :
  0 ≤ 7
  ∧ orderItems Sample.loaded !! 1%nat = Some Sample.ramen
  ∧ length (orderItems (updateQuantity 1 7 Sample.loaded))
    = length (orderItems Sample.loaded)
  ∧ ∃ item',
      orderItems (updateQuantity 1 7 Sample.loaded) !! 1%nat = Some item'
      ∧ (OrderItem.id Sample.ramen ≠ 1 → item' = Sample.ramen)
      ∧ OrderItem.id item' = OrderItem.id Sample.ramen
      ∧ OrderItem.product_name item' = OrderItem.product_name Sample.ramen
      ∧ OrderItem.current_stock item' = OrderItem.current_stock Sample.ramen
      ∧ OrderItem.safe_stock item' = OrderItem.safe_stock Sample.ramen
      ∧ OrderItem.unit_price item' = OrderItem.unit_price Sample.ramen
      ∧ OrderItem.reason item' = OrderItem.reason Sample.ramen
      ∧ OrderItem.priority item' = OrderItem.priority Sample.ramen.
Proof.
  split; [lia |]. split; [reflexivity |].
  apply (updateQuantity_frame Sample.loaded 1 7 1 Sample.ramen);
    [lia | reflexivity].
Defined.

End QuantityEditsWitnesses.

(** ** Totals shown for the selected recommendation *)

Module Totals.

Import OrderRecommendations QuantityEdits.





End Totals.

(** ** The shortage shown for an item *)

Module Shortage.

Import OrderRecommendations.

Lemma shortfall_cases item :
  shortfall item
  = if OrderItem.current_stock item <? OrderItem.safe_stock item
    then OrderItem.safe_stock item - OrderItem.current_stock item
    else 0.
Proof.
  unfold shortfall.
  destruct (Z.ltb_spec (OrderItem.current_stock item) (OrderItem.safe_stock item)); lia.
Qed.

(** C3.  The shortage computed for an item is
    [max(0, safe_stock − current_stock)], the assessment stage's
    shortfall; it is never negative; an item whose shortfall is zero is
    not flagged, and an item is flagged exactly when its shortfall is
    positive (that is, when its stock is below the safe stock). *)
Theorem shortfall_nonnegative_and_flagged (item : OrderItem.t) :
  let current := OrderItem.current_stock item in
  let safe := OrderItem.safe_stock item in
  shortfall item = Z.max 0 (safe - current)
  ∧ shortfall item = InventoryAssessment.shortfall current safe
  ∧ 0 ≤ shortfall item
  ∧ (shortfall item = 0 ↔ InventoryAssessment.flagged current safe = false)
  ∧ (0 < shortfall item ↔ InventoryAssessment.flagged current safe = true)
  ∧ (current < safe ↔ InventoryAssessment.flagged current safe = true).
Proof.
  intros current safe.
  unfold InventoryAssessment.flagged, InventoryAssessment.shortfall, shortfall.
  fold current safe.
  destruct (Z.ltb_spec 0 (Z.max 0 (safe - current))) as [Hpos | Hzero].
  - split_and!; try lia; split; intros;
      first [reflexivity | congruence | lia | exfalso; lia].
  - split_and!; try lia; split; intros;
      first [reflexivity | congruence | lia | exfalso; lia].
Qed.

End Shortage.

(** ** Invalid input in the quantity field *)

Module InvalidEdits.

Import OrderRecommendations QuantityEdits.

(** C4 as stated fails on text that is not a number: the field's handler
    turns it into the quantity 0 and applies the edit.  Typing [abc] into
    the row of the first sample item changes its order quantity from 5 to
    0 and its total cost from 500 to 0, and marks the screen as changed. *)
Lemma nonnumeric_edit_changes_item :
  Js.parseInt "abc" = None
  ∧ OrderItem.order_quantity <$> orderItems Sample.loaded = [5; 2]
  ∧ OrderItem.total_cost <$> orderItems Sample.loaded = [500; 100]
  ∧ OrderItem.order_quantity
      <$> orderItems (onQuantityChange Sample.cola "abc" Sample.loaded)
    = [0; 2]
  ∧ OrderItem.total_cost
      <$> orderItems (onQuantityChange Sample.cola "abc" Sample.loaded)
    = [0; 100]
  ∧ hasChanges (onQuantityChange Sample.cola "abc" Sample.loaded) = true.
Proof. repeat split. Qed.

(** Emptying the field has the same effect. *)
Example cleared_field_sets_zero :
  Js.parseInt "" = None
  ∧ OrderItem.order_quantity
      <$> orderItems (onQuantityChange Sample.cola "" Sample.loaded)
    = [0; 2].
Proof. repeat split. Qed.

(** What the field's handler does depends on the integer [parseInt] reads
    at the start of the text, not on whether the text is a number. *)
Example leading_integer_decides :
  Js.parseInt "-3" = Some (-3)
  ∧ Js.parseInt "-0.5" = Some 0
  ∧ Js.parseInt "12abc" = Some 12
  ∧ Js.parseInt "abc" = None.
Proof. repeat split. Qed.

(** C4, amended.  [updateQuantity] called with a negative quantity returns
    the state it was given: no item changes, the screen is not marked as
    changed, and no error is produced.  The quantity field hands it
    [parseInt(value) || 0], so the integer that [parseInt] reads at the
    start of the text decides: when that integer is negative the handler
    returns the state it was given; when it is not negative (and at most
    2^53) the edit is applied with that integer, whatever follows it in the
    text; and when the text starts with no integer the edit is applied with
    quantity 0, so every item with the row's id ends with order quantity 0
    and total cost 0. *)
Theorem invalid_quantity_edits
    (st : State) (itemId newQuantity : Z) (item : OrderItem.t)
    (value : string) :
  (newQuantity < 0 → updateQuantity itemId newQuantity st = st)
  ∧ (∀ n, Js.parseInt value = Some n → n < 0 →
       onQuantityChange item value st = st)
  ∧ (∀ n, Js.parseInt value = Some n → 0 ≤ n ≤ 2 ^ 53 →
       onQuantityChange item value st
       = updateQuantity (OrderItem.id item) n st
       ∧ hasChanges (onQuantityChange item value st) = true)
  ∧ (Js.parseInt value = None →
       onQuantityChange item value st
       = updateQuantity (OrderItem.id item) 0 st
       ∧ hasChanges (onQuantityChange item value st) = true
       ∧ ∀ i it,
           orderItems st !! i = Some it →
           OrderItem.id it = OrderItem.id item →
           ∃ it',
             orderItems (onQuantityChange item value st) !! i = Some it'
             ∧ OrderItem.order_quantity it' = 0
             ∧ OrderItem.total_cost it' = 0).
Proof.
  split; [apply updateQuantity_negative |].
  split.
  { intros n Hparse Hneg. unfold onQuantityChange. rewrite Hparse. simpl.
    apply updateQuantity_negative, Hneg. }
  split.
  { intros n Hparse [Hn _]. unfold onQuantityChange. rewrite Hparse.
    cbn [Js.orZero]. split; [reflexivity |].
    apply updateQuantity_sets_hasChanges, Hn. }
  intros Hparse. unfold onQuantityChange. rewrite Hparse.
  cbn [Js.orZero]. split; [reflexivity |].
  split; [apply updateQuantity_sets_hasChanges; lia |].
  intros i it Hi Hid.
  exists (updateItem (OrderItem.id item) 0 it).
  split; [apply updateQuantity_lookup; [lia | exact Hi] |].
  rewrite updateItem_hit by assumption. simpl. split; lia.
Qed.

Lemma invalid_quantity_edits_witness :
  updateQuantity 1 (-3) Sample.loaded = Sample.loaded
  ∧ onQuantityChange Sample.cola "-3" Sample.loaded = Sample.loaded
  ∧ onQuantityChange Sample.cola "-0.5" Sample.loaded
    = updateQuantity 1 0 Sample.loaded
  ∧ onQuantityChange Sample.cola "12abc" Sample.loaded
    = updateQuantity 1 12 Sample.loaded
  ∧ onQuantityChange Sample.cola "abc" Sample.loaded
    = updateQuantity 1 0 Sample.loaded.
Proof.
  pose proof (invalid_quantity_edits Sample.loaded 1 (-3) Sample.cola "-3")
    as (Hneg & Htext & _).
  pose proof (invalid_quantity_edits Sample.loaded 1 (-3) Sample.cola "-0.5")
    as (_ & _ & Hzero & _).
  pose proof (invalid_quantity_edits Sample.loaded 1 (-3) Sample.cola "12abc")
    as (_ & _ & Happlied & _).
  pose proof (invalid_quantity_edits Sample.loaded 1 (-3) Sample.cola "abc")
    as (_ & _ & _ & Hnan).
  split; [apply Hneg; lia |].
  split; [apply (Htext (-3)); [reflexivity | lia] |].
  split; [apply (Hzero 0); [reflexivity | lia] |].
  split; [apply (Happlied 12); [reflexivity | lia] |].
  apply Hnan. reflexivity.
Defined.

End InvalidEdits.

(** ** Execution and unsaved edits *)

Module ExecuteGuard.

Import OrderRecommendations QuantityEdits.

Lemma handleExecuteClick_blocked st :
  hasChanges st = true → handleExecuteClick st = st.
Proof. intros H. unfold handleExecuteClick. rewrite H. reflexivity. Qed.

Lemma handleExecuteClick_opens st :
  hasChanges st = false →
  handleExecuteClick st = setShowExecuteModal true st.
Proof. intros H. unfold handleExecuteClick. rewrite H. reflexivity. Qed.

Lemma updateQuantity_keeps_hasChanges st itemId newQuantity :
  hasChanges st = true →
  hasChanges (updateQuantity itemId newQuantity st) = true.
Proof.
  intros H. unfold updateQuantity. destruct (newQuantity <? 0); [exact H | reflexivity].
Qed.

Lemma updateQuantity_keeps_modal st itemId newQuantity :
  showExecuteModal (updateQuantity itemId newQuantity st) = showExecuteModal st.
Proof. unfold updateQuantity. destruct (newQuantity <? 0); reflexivity. Qed.

(** Only a reload of the items or a save that went through resets the
    flag. *)
Lemma step_keeps_hasChanges e st :
  hasChanges st = true → clearsHasChanges e = false →
  hasChanges (step e st) = true.
Proof.
  intros H Hclear. destruct e; simpl in *; try discriminate;
    try (apply updateQuantity_keeps_hasChanges; exact H).
  - destruct resp; exact H.
  - exact H.
  - subst putsOk. unfold saveQuantityChanges.
    destruct (selectedOrderId st) as [selected |]; [| exact H].
    destruct (Js.falsy (Some selected)); exact H.
  - destruct ok as [[|] |]; try exact H. destruct ordersResp; exact H.
  - rewrite handleExecuteClick_blocked; exact H.
  - unfold executeOrder. destruct (Js.falsy (selectedOrderId st)); [exact H |].
    destruct ok; [| exact H]. destruct ordersResp; exact H.
  - exact H.
Qed.

(** With the flag set, no handler opens the confirmation. *)
Lemma step_keeps_modal_closed e st :
  hasChanges st = true → showExecuteModal st = false →
  showExecuteModal (step e st) = false.
Proof.
  intros H Hm. destruct e; simpl;
    try (unfold onMinusClick, onQuantityChange, onPlusClick;
         rewrite updateQuantity_keeps_modal; exact Hm).
  - destruct resp; exact Hm.
  - destruct resp; exact Hm.
  - exact Hm.
  - unfold saveQuantityChanges.
    destruct (selectedOrderId st) as [selected |]; [| exact Hm].
    destruct (Js.falsy (Some selected)); [exact Hm |].
    destruct putsOk; [| exact Hm].
    destruct ordersResp, itemsResp; exact Hm.
  - destruct ok as [[|] |]; try exact Hm. destruct ordersResp; exact Hm.
  - rewrite handleExecuteClick_blocked; assumption.
  - unfold executeOrder. destruct (Js.falsy (selectedOrderId st)); [exact Hm |].
    destruct ok; [| exact Hm]. destruct ordersResp; reflexivity.
  - reflexivity.
Qed.

Lemma run_keeps_guard evs st :
  hasChanges st = true → showExecuteModal st = false →
  Forall (fun e => clearsHasChanges e = false) evs →
  hasChanges (run evs st) = true ∧ showExecuteModal (run evs st) = false.
Proof.
  revert st. induction evs as [| e evs IH]; intros st H Hm Hevs.
  - split; assumption.
  - inversion Hevs as [| ? ? He Hrest]; subst.
    simpl. apply IH; [| | exact Hrest].
    + apply step_keeps_hasChanges; assumption.
    + apply step_keeps_modal_closed; assumption.
Qed.

Lemma closed_modal_posts_nothing st e :
  showExecuteModal st = false → Enabled e st → executePosted e st = None.
Proof.
  intros Hm Hen. destruct e; try reflexivity.
  simpl in Hen. destruct Hen as [_ Hshown].
  unfold executeModalShown in Hshown. rewrite Hm in Hshown. discriminate.
Qed.

(** C10, amended.  While [hasChanges] is set, [handleExecuteClick] returns
    the state it was given (the confirmation is not opened) and the
    execute button is disabled; the only events that reset the flag are a
    reload of an order's items and a save whose requests went through;
    and from a state with the flag set and the confirmation closed, as
    long as no such event happens, the flag stays set, the confirmation
    stays closed and no available handler posts an execute request. *)
Theorem execute_waits_for_cleared_changes (st : State) :
  hasChanges st = true →
  (handleExecuteClick st = st ∧ executeButtonDisabled st = true)
  ∧ (∀ e, hasChanges (step e st) = false → clearsHasChanges e = true)
  ∧ (showExecuteModal st = false →
     ∀ evs, Forall (fun e => clearsHasChanges e = false) evs →
       hasChanges (run evs st) = true
       ∧ handleExecuteClick (run evs st) = run evs st
       ∧ executeButtonDisabled (run evs st) = true
       ∧ executeModalShown (run evs st) = false
       ∧ ∀ e, Enabled e (run evs st) → executePosted e (run evs st) = None).
Proof.
  intros H. split; [split; [apply handleExecuteClick_blocked, H | exact H] |].
  split.
  - intros e Hreset. destruct (clearsHasChanges e) eqn:Hc; [reflexivity |].
    rewrite step_keeps_hasChanges in Hreset by assumption. discriminate.
  - intros Hm evs Hevs.
    destruct (run_keeps_guard evs st H Hm Hevs) as [H' Hm'].
    split; [exact H' |].
    split; [apply handleExecuteClick_blocked, H' |].
    split; [exact H' |].
    split; [unfold executeModalShown; rewrite Hm'; reflexivity |].
    intros e. apply closed_modal_posts_nothing, Hm'.
Qed.

Ltac rendered :=
  repeat split; simpl;
  first [ reflexivity | discriminate | constructor
        | eexists; reflexivity | right; constructor ].

Lemma execute_waits_for_cleared_changes_witness :
  hasChanges Sample.edited = true
  ∧ showExecuteModal Sample.edited = false
  ∧ handleExecuteClick Sample.edited = Sample.edited
  ∧ hasChanges
      (run [Refresh None; ExecuteClick; MinusClick Sample.ramen]
           Sample.edited) = true
  ∧ executeModalShown
      (run [Refresh None; ExecuteClick; MinusClick Sample.ramen]
           Sample.edited) = false.
Proof.
  pose proof (execute_waits_for_cleared_changes Sample.edited eq_refl)
    as ((Hclick & _) & _ & Hrun).
  specialize (Hrun eq_refl
                [Refresh None; ExecuteClick; MinusClick Sample.ramen]).
  destruct Hrun as (Hflag & _ & _ & Hmodal & _).
  - repeat constructor.
  - repeat split; assumption.
Defined.

(** C10 as stated fails where it says that only a save lets execution
    proceed: selecting the recommendation again reloads its items (the
    local edit is dropped) and clears the flag, after which the
    confirmation opens and its button posts the execute request, with no
    save in between. *)
Lemma execute_after_reload_without_save :
  let evs := [SelectOrder Sample.order1 (Some [Sample.cola; Sample.ramen]);
              ExecuteClick] in
  hasChanges Sample.edited = true
  ∧ Feasible evs Sample.edited
  ∧ existsb isSave evs = false
  ∧ Enabled (ConfirmExecute true None) (run evs Sample.edited)
  ∧ executePosted (ConfirmExecute true None) (run evs Sample.edited)
    = Some 1.
Proof. rendered. Qed.

(** The flag is tested when the confirmation is opened, not when it is
    confirmed: an edit made while the confirmation is open (the table
    stays rendered under it) leaves the confirm button live. *)
Lemma edit_under_open_confirmation :
  let evs := [ExecuteClick; PlusClick Sample.cola] in
  hasChanges Sample.loaded = false
  ∧ Feasible evs Sample.loaded
  ∧ hasChanges (run evs Sample.loaded) = true
  ∧ Enabled (ConfirmExecute true None) (run evs Sample.loaded)
  ∧ executePosted (ConfirmExecute true None) (run evs Sample.loaded)
    = Some 1.
Proof. rendered. Qed.

End ExecuteGuard.

(** ** Execution of a recommendation *)

Module ExactlyOnce.

Import LifecycleManager.

Lemma stock_addStock ledger it pid :
  current_stock <$> addStock ledger it !! pid
  = (fun c => if product_id it =? pid then c + order_quantity it else c)
      <$> (current_stock <$> ledger !! pid).
Proof.
  unfold addStock. destruct (Z.eqb_spec (product_id it) pid) as [-> | Hne].
  - rewrite lookup_alter_eq. destruct (ledger !! pid); reflexivity.
  - rewrite lookup_alter_ne by assumption. destruct (ledger !! pid); reflexivity.
Qed.

(** Receiving the items one after the other adds, for each product, the
    quantities of the items that name it. *)
Lemma stock_foldl_addStock its ledger pid :
  current_stock <$> foldl addStock ledger its !! pid
  = (fun c => c + ordered pid its) <$> (current_stock <$> ledger !! pid).
Proof.
  revert ledger. induction its as [| it its IH]; intros ledger; simpl.
  - destruct (ledger !! pid); simpl; f_equal; lia.
  - rewrite IH, stock_addStock.
    destruct (ledger !! pid); simpl; [| reflexivity].
    destruct (product_id it =? pid); f_equal; lia.
Qed.

Lemma execute_not_pending now id s r :
  recommendations s !! id = Some r → status r ≠ pending →
  execute now id s = Err InvalidState.
Proof.
  intros Hr Hs. unfold execute. rewrite Hr.
  destruct (status r); [contradiction | reflexivity | reflexivity].
Qed.

Lemma forallb_productExists ledger its :
  Forall (fun it => is_Some (ledger !! product_id it)) its →
  forallb (productExists ledger) its = true.
Proof.
  induction 1 as [| it its Hit _ IH]; simpl; [reflexivity |].
  rewrite IH. unfold productExists. rewrite bool_decide_eq_true_2 by exact Hit.
  reflexivity.
Qed.

(** C2.  On a pending recommendation whose products all exist, [execute]
    succeeds: the recommendation becomes executed and the stock of every
    product grows by the quantity ordered of it.  A second [execute] on
    the same id fails with InvalidState, so the store after both calls is
    the store after the first: the quantities were added exactly once. *)
Theorem execute_exactly_once
    (s : Store) (id : Z) (r : Recommendation) (now later : Z) :
  recommendations s !! id = Some r →
  status r = pending →
  Forall (fun it => is_Some (products s !! product_id it)) (items r) →
  ∃ s1,
    execute now id s = Ok s1
    ∧ status <$> recommendations s1 !! id = Some executed
    ∧ executed_at <$> recommendations s1 !! id = Some (Some now)
    ∧ (∀ pid,
         stock s1 pid = (fun c => c + ordered pid (items r)) <$> stock s pid)
    ∧ execute later id s1 = Err InvalidState
    ∧ after (execute later id) (after (execute now id) s) = s1.
Proof.
  intros Hr Hs Hall.
  assert (Hrun : execute now id s
                 = Ok (mkStore (foldl addStock (products s) (items r))
                         (<[id := markExecuted now r]> (recommendations s)))).
  { unfold execute. rewrite Hr, Hs, forallb_productExists by exact Hall.
    reflexivity. }
  assert (Hagain : execute later id
                     (mkStore (foldl addStock (products s) (items r))
                        (<[id := markExecuted now r]> (recommendations s)))
                   = Err InvalidState).
  { apply execute_not_pending with (r := markExecuted now r).
    - simpl. apply lookup_insert_eq.
    - simpl. discriminate. }
  eexists. split; [exact Hrun |].
  split; [simpl; rewrite lookup_insert_eq; reflexivity |].
  split; [simpl; rewrite lookup_insert_eq; reflexivity |].
  split; [intros pid; unfold stock; simpl; apply stock_foldl_addStock |].
  split; [exact Hagain |].
  unfold after. rewrite Hrun, Hagain. reflexivity.
Qed.

Lemma execute_exactly_once_witness :
  recommendations Sample.store !! 7 = Some Sample.recommendation
  ∧ status Sample.recommendation = pending
  ∧ ∃ s1,
      execute 100 7 Sample.store = Ok s1
      ∧ status <$> recommendations s1 !! 7 = Some executed
      ∧ executed_at <$> recommendations s1 !! 7 = Some (Some 100)
      ∧ (∀ pid,
           stock s1 pid
           = (fun c => c + ordered pid (items Sample.recommendation))
               <$> stock Sample.store pid)
      ∧ execute 200 7 s1 = Err InvalidState
      ∧ after (execute 200 7) (after (execute 100 7) Sample.store) = s1.
Proof.
  split; [reflexivity |]. split; [reflexivity |].
  apply (execute_exactly_once Sample.store 7 Sample.recommendation 100 200);
    [reflexivity | reflexivity |].
  repeat constructor; eexists; reflexivity.
Defined.

(** The scenario evaluated: after two calls the stock of A is 25 and that
    of B is 20, and the second call is refused. *)
Example scenario_stock :
  stock (after (execute 200 7) (after (execute 100 7) Sample.store)) 1 = Some 25
  ∧ stock (after (execute 200 7) (after (execute 100 7) Sample.store)) 2 = Some 20
  ∧ execute 200 7 (after (execute 100 7) Sample.store) = Err InvalidState.
Proof. repeat split; vm_compute; reflexivity. Qed.

End ExactlyOnce.

(** ** Priority of a flagged product *)

Module PriorityAssignment.

Import InventoryAssessment DecisionStage.

(** C5.  For a flagged product with non-negative stock the priority is
    [high] exactly when the stock is zero, [medium] exactly when the stock
    is positive and twice the shortfall reaches the safe stock (the
    shortfall is at least 50% of it), and [low] exactly in the remaining
    case; stock 4 of 10 gives [medium], stock 8 of 10 gives [low]. *)
Theorem priority_assignment (current_stock safe_stock : Z) :
  0 ≤ current_stock →
  flagged current_stock safe_stock = true →
  (priority current_stock safe_stock = high ↔ current_stock = 0)
  ∧ (priority current_stock safe_stock = medium
     ↔ 0 < current_stock
       ∧ safe_stock ≤ 2 * shortfall current_stock safe_stock)
  ∧ (priority current_stock safe_stock = low
     ↔ 0 < current_stock
       ∧ 2 * shortfall current_stock safe_stock < safe_stock)
  ∧ priority 0 safe_stock = high
  ∧ priority 4 10 = medium
  ∧ priority 8 10 = low.
Proof.
  intros Hnonneg _. unfold priority.
  destruct (Z.eqb_spec current_stock 0) as [Hz | Hz];
    destruct (Z.leb_spec safe_stock (2 * shortfall current_stock safe_stock));
    split_and!; try reflexivity; split;
    first [ discriminate | reflexivity | lia
          | intros [? ?]; first [lia | reflexivity] | intros; split; lia ].
Qed.

Lemma priority_assignment_witness :
  0 ≤ 15
  ∧ flagged 15 20 = true
  ∧ (priority 15 20 = low ↔ 0 < 15 ∧ 2 * shortfall 15 20 < 20).
Proof.
  split; [lia |]. split; [reflexivity |].
  apply (priority_assignment 15 20); [lia | reflexivity].
Defined.

(** The badge the order screen shows for each priority the stage can
    assign. *)
Lemma priorityBadge_of_priority (item : OrderItem.t) (p : Priority) :
  OrderItem.priority item = priorityName p →
  OrderRecommendations.priorityBadge item
  = match p with
    | high => OrderRecommendations.Red
    | medium => OrderRecommendations.Amber
    | low => OrderRecommendations.Green
    end.
Proof.
  intros Hp. unfold OrderRecommendations.priorityBadge. rewrite Hp.
  destruct p; reflexivity.
Qed.

End PriorityAssignment.

(** ** The scheduler's guard *)

Module SingleFlight.

Import Scheduler.

Lemma trigger_idle src now st :
  inFlight st = [] →
  trigger src now st
  = (Started (mkRun (nextRunId st) now running),
     mkState [mkRun (nextRunId st) now running] (S (nextRunId st))
       (created st)).
Proof. intros H. unfold trigger. rewrite H. reflexivity. Qed.

Lemma trigger_busy src now st :
  inFlight st ≠ [] → trigger src now st = (AlreadyRunning, st).
Proof.
  intros H. unfold trigger. destruct (inFlight st); [contradiction | reflexivity].
Qed.

Lemma trigger_leaves_busy src now st :
  inFlight (trigger src now st).2 ≠ [].
Proof.
  unfold trigger. destruct (inFlight st) eqn:H; simpl; [discriminate |].
  rewrite H. discriminate.
Qed.

Lemma trigger_created src now st :
  created (trigger src now st).2 = created st.
Proof. unfold trigger. destruct (inFlight st); reflexivity. Qed.

Lemma step_single_flight e st :
  (length (inFlight st) ≤ 1)%nat → (length (inFlight (step e st)) ≤ 1)%nat.
Proof.
  intros H. destruct e as [src now | id o]; simpl.
  - unfold trigger. destruct (inFlight st) eqn:Hin; simpl; [lia |].
    rewrite Hin. exact H.
  - unfold finish. case_bool_decide; [| exact H]. simpl.
    etransitivity; [apply length_filter | exact H].
Qed.

Lemma run_single_flight evs st :
  (length (inFlight st) ≤ 1)%nat → (length (inFlight (run evs st)) ≤ 1)%nat.
Proof.
  revert st. induction evs as [| e evs IH]; intros st H; simpl; [exact H |].
  apply IH, step_single_flight, H.
Qed.

Lemma finish_only_run id o r st :
  inFlight st = [r] → run_id r = id →
  finish id o st
  = mkState [] (nextRunId st)
      (created st ++ match o with
                     | Decided rec => [rec]
                     | EmptyDecision | Failure => []
                     end).
Proof.
  intros Hin Hid. unfold finish. rewrite Hin.
  rewrite bool_decide_eq_true_2 by (constructor; exact Hid).
  rewrite filter_cons_False by (intros Hne; apply Hne, Hid).
  reflexivity.
Qed.

(** C7.  In every state the scheduler reaches from idle, whatever the
    order of triggers and run endings, at most one run is in flight.  Of
    two triggers handled with no run ending in between, the second is
    always answered AlreadyRunning and changes nothing (it is not queued);
    when no run was in flight the first one starts a run, and when that
    run ends with a decision exactly one recommendation has been added and
    the guard is free again. *)
Theorem scheduler_single_flight
    (evs : list Event) (src1 src2 : Source) (now1 now2 : Z)
    (rec : LifecycleManager.Recommendation) :
  let st := run evs idle in
  let st1 := (trigger src1 now1 st).2 in
  let st2 := (trigger src2 now2 st1).2 in
  (length (inFlight st) ≤ 1)%nat
  ∧ (trigger src2 now2 st1).1 = AlreadyRunning
  ∧ st2 = st1
  ∧ (length (inFlight st2) = 1)%nat
  ∧ created st2 = created st
  ∧ (inFlight st = [] →
     ∃ r, (trigger src1 now1 st).1 = Started r
          ∧ run_status r = running
          ∧ inFlight st2 = [r]
          ∧ inFlight (finish (run_id r) (Decided rec) st2) = []
          ∧ created (finish (run_id r) (Decided rec) st2)
            = created st ++ [rec]).
Proof.
  intros st st1 st2.
  assert (Hinv : (length (inFlight st) ≤ 1)%nat).
  { apply run_single_flight. simpl. lia. }
  assert (Hbusy : inFlight st1 ≠ []) by apply trigger_leaves_busy.
  assert (H2 : trigger src2 now2 st1 = (AlreadyRunning, st1))
    by (apply trigger_busy, Hbusy).
  assert (Hst2 : st2 = st1) by (unfold st2; rewrite H2; reflexivity).
  split; [exact Hinv |].
  split; [rewrite H2; reflexivity |].
  split; [exact Hst2 |].
  split.
  { rewrite Hst2.
    assert ((length (inFlight st1) ≤ 1)%nat)
      by (apply (step_single_flight (Trigger src1 now1)), Hinv).
    destruct (inFlight st1); [contradiction | simpl in *; lia]. }
  split; [rewrite Hst2; apply trigger_created |].
  intros Hidle. eexists.
  rewrite Hst2. unfold st1. rewrite (trigger_idle src1 now1 st Hidle). simpl.
  split; [reflexivity |]. split; [reflexivity |]. split; [reflexivity |].
  rewrite (finish_only_run _ _ (mkRun (nextRunId st) now1 running))
    by reflexivity.
  split; reflexivity.
Qed.

Lemma scheduler_single_flight_witness :
  inFlight (run [Trigger Timer 6; Finish 0 EmptyDecision] idle) = []
  ∧ replies [Trigger Timer 6; Finish 0 EmptyDecision;
             Trigger Manual 10; Trigger Manual 10] idle
    = [Started (mkRun 0 6 running); Started (mkRun 1 10 running);
       AlreadyRunning]
  ∧ ∃ r,
      (trigger Manual 10
         (run [Trigger Timer 6; Finish 0 EmptyDecision] idle)).1
      = Started r
      ∧ created
          (finish (run_id r) (Decided Sample.recommendation)
             (run [Trigger Timer 6; Finish 0 EmptyDecision;
                   Trigger Manual 10; Trigger Manual 10] idle))
        = [Sample.recommendation].
Proof.
  split; [reflexivity |]. split; [reflexivity |].
  pose proof (scheduler_single_flight
                [Trigger Timer 6; Finish 0 EmptyDecision]
                Manual Manual 10 10 Sample.recommendation)
    as (_ & _ & _ & _ & _ & Hidle).
  destruct (Hidle eq_refl) as (r & Hr & _ & _ & _ & Hcreated).
  exists r. split; [exact Hr | exact Hcreated].
Defined.

(** On the order screen a trigger that the server answers with a status
    other than ok changes nothing but the busy flag: the list is not
    reloaded. *)
Lemma generate_not_ok_keeps_screen ordersResp st :
  OrderRecommendations.generateNewRecommendation (Some false) ordersResp st
  = OrderRecommendations.setIsGenerating false st.
Proof. reflexivity. Qed.

End SingleFlight.

(** ** The day-over-day sales delta *)

Module SalesDelta.

Import AnalysisStage.

Lemma percentChange_zero_prior recent :
  percentChange recent 0 = 0%Q.
Proof. reflexivity. Qed.

Lemma inject_Z_nonzero (z : Z) : z ≠ 0 → ¬ (inject_Z z == 0)%Q.
Proof. intros Hz Heq. unfold Qeq in Heq. simpl in Heq. lia. Qed.

Lemma percentChange_nonzero_prior recent prior :
  prior ≠ 0 →
  (percentChange recent prior * inject_Z prior
   == inject_Z (recent - prior) * 100)%Q.
Proof.
  intros Hp. unfold percentChange.
  destruct (Z.eqb_spec prior 0) as [Hz | _]; [contradiction |].
  field. apply inject_Z_nonzero, Hp.
Qed.

(** The day's sales do not depend on the order in which the records are
    stored. *)
Lemma daySales_permutation history history' day :
  history ≡ₚ history' → daySales history day = daySales history' day.
Proof.
  unfold daySales.
  induction 1 as [| r l l' _ IH | r1 r2 l | l1 l2 l3 _ IH1 _ IH2];
    cbn [foldr].
  - reflexivity.
  - rewrite IH. reflexivity.
  - destruct (sale_date r1 =? day), (sale_date r2 =? day); lia.
  - congruence.
Qed.

(** C8.  The delta is defined for every window and every sales history:
    it is 0 when the day before the most recent day has no sales, and
    otherwise it is the percent change of the most recent day against the
    day before (delta × prior = (recent − prior) × 100).  It depends only on
    the window and the records: histories that hold the same records in a
    different order give the same delta. *)
Theorem sales_delta_guarded (w : Window) (history : list SalesRecord) :
  let recent := daySales history (end_date w) in
  let prior := daySales history (end_date w - 1) in
  (prior = 0 → salesDelta w history = 0%Q)
  ∧ (prior ≠ 0 →
     (salesDelta w history * inject_Z prior
      == inject_Z (recent - prior) * 100)%Q)
  ∧ (∀ history', history ≡ₚ history' →
       salesDelta w history' = salesDelta w history).
Proof.
  intros recent prior. unfold salesDelta. fold recent prior.
  split; [intros ->; apply percentChange_zero_prior |].
  split; [apply percentChange_nonzero_prior |].
  intros history' Hperm.
  rewrite <- !(daySales_permutation history history') by exact Hperm.
  reflexivity.
Qed.

Lemma sales_delta_guarded_witness :
  daySales Sample.sales 11 = 0
  ∧ salesDelta (mkWindow 12 7) Sample.sales = 0%Q
  ∧ daySales Sample.sales 9 = 3000
  ∧ daySales Sample.sales 10 = 4000
  ∧ (salesDelta (mkWindow 10 7) Sample.sales * inject_Z 3000
     == inject_Z 1000 * 100)%Q.
Proof.
  pose proof (sales_delta_guarded (mkWindow 12 7) Sample.sales) as (Hzero & _ & _).
  pose proof (sales_delta_guarded (mkWindow 10 7) Sample.sales) as (_ & Hchange & _).
  split; [reflexivity |].
  split; [apply Hzero; reflexivity |].
  split; [reflexivity |]. split; [reflexivity |].
  apply Hchange. discriminate.
Defined.

(** With no Sample.sales on the day before, the dashboard's card shows [+0%] with
    the upward trend. *)
Lemma zero_prior_shown_as_up (w : Window) (history : list SalesRecord) :
  daySales history (end_date w - 1) = 0 →
  Dashboard.changePrefix (salesDelta w history) = "+"
  ∧ Dashboard.trend (salesDelta w history) = Dashboard.up.
Proof.
  intros Hprior. unfold salesDelta. rewrite Hprior, percentChange_zero_prior.
  split; reflexivity.
Qed.

End SalesDelta.

(* ===================================================================== *)
(** * Part III.  Further properties of the front end                      *)
(* ===================================================================== *)

#[local] Set Warnings "-clear-no-such-hyp".

(** ** How edits and toggles compose *)

Module EditAlgebra.

Import OrderRecommendations QuantityEdits.

Lemma updateQuantity_unfold st itemId newQuantity :
  0 ≤ newQuantity →
  updateQuantity itemId newQuantity st
  = setHasChanges true
      (setOrderItems (updateItem itemId newQuantity <$> orderItems st) st).
Proof.
  intros Hq. unfold updateQuantity.
  destruct (Z.ltb_spec newQuantity 0); [lia | reflexivity].
Qed.

Lemma updateItem_id itemId newQuantity item :
  OrderItem.id (updateItem itemId newQuantity item) = OrderItem.id item.
Proof. unfold updateItem. destruct (OrderItem.id item =? itemId); reflexivity. Qed.

Lemma updateItem_overwrite itemId q1 q2 item :
  updateItem itemId q2 (updateItem itemId q1 item) = updateItem itemId q2 item.
Proof.
  destruct (decide (OrderItem.id item = itemId)) as [Hid | Hid].
  - rewrite (updateItem_hit itemId q1) by assumption.
    rewrite !updateItem_hit by (simpl; assumption). reflexivity.
  - rewrite (updateItem_miss itemId q1) by assumption. reflexivity.
Qed.

Lemma updateItem_commute id1 q1 id2 q2 item :
  id1 ≠ id2 →
  updateItem id1 q1 (updateItem id2 q2 item)
  = updateItem id2 q2 (updateItem id1 q1 item).
Proof.
  intros Hne.
  destruct (decide (OrderItem.id item = id1)) as [H1 | H1];
    destruct (decide (OrderItem.id item = id2)) as [H2 | H2];
    try congruence.
  - rewrite (updateItem_miss id2 q2 item) by assumption.
    rewrite (updateItem_miss id2 q2) by (rewrite updateItem_id; assumption).
    reflexivity.
  - rewrite (updateItem_miss id1 q1 item) by assumption.
    rewrite (updateItem_miss id1 q1) by (rewrite updateItem_id; assumption).
    reflexivity.
  - rewrite (updateItem_miss id2 q2 item) by assumption.
    rewrite (updateItem_miss id1 q1 item) by assumption.
    rewrite (updateItem_miss id2 q2 item) by assumption.
    reflexivity.
Qed.

(** X1.  Toggling the detail panel of an item twice gives back the state
    the screen was in; one toggle flips the panel of that item and of no
    other. *)
Theorem toggleItemDetail_involutive (itemId : Z) (st : State) :
  toggleItemDetail itemId (toggleItemDetail itemId st) = st
  ∧ (itemId ∈ expandedItems (toggleItemDetail itemId st)
     ↔ itemId ∉ expandedItems st)
  ∧ (∀ other, other ≠ itemId →
       (other ∈ expandedItems (toggleItemDetail itemId st)
        ↔ other ∈ expandedItems st)).
Proof.
  destruct st as [os sel items ld ild gen expanded changed modal].
  unfold toggleItemDetail, setExpandedItems. simpl.
  destruct (decide (itemId ∈ expanded)) as [Hin | Hout].
  - split_and!.
    + destruct (decide (itemId ∈ expanded ∖ {[itemId]})) as [Hin' | _];
        [set_solver |].
      f_equal. apply set_eq. intros x.
      destruct (decide (x = itemId)); set_solver.
    + set_solver.
    + intros other Hne. set_solver.
  - split_and!.
    + destruct (decide (itemId ∈ expanded ∪ {[itemId]})) as [_ | Hout'];
        [| set_solver].
      f_equal. set_solver.
    + set_solver.
    + intros other Hne. set_solver.
Qed.

(** X2.  The last edit of an item wins: an edit to a non-negative quantity
    gives the same state whether or not another edit of the same item came
    before it. *)
Theorem updateQuantity_last_write_wins
    (st : State) (itemId q1 q2 : Z) :
  0 ≤ q2 →
  updateQuantity itemId q2 (updateQuantity itemId q1 st)
  = updateQuantity itemId q2 st.
Proof.
  intros Hq2. destruct (Z.lt_ge_cases q1 0) as [Hneg | Hq1].
  - rewrite (updateQuantity_negative st itemId q1) by assumption. reflexivity.
  - rewrite !updateQuantity_unfold by assumption.
    destruct st as [os sel items ld ild gen expanded changed modal].
    unfold setHasChanges, setOrderItems. simpl. f_equal.
    rewrite <- list_fmap_compose. apply list_fmap_ext.
    intros i item _. simpl. apply updateItem_overwrite.
Qed.

Lemma updateQuantity_last_write_wins_witness :
  0 ≤ 3
  ∧ updateQuantity 1 3 (updateQuantity 1 9 Sample.loaded)
    = updateQuantity 1 3 Sample.loaded.
Proof.
  split; [lia |].
  apply (updateQuantity_last_write_wins Sample.loaded 1 9 3). lia.
Defined.

(** X3.  Edits of items with different ids commute: the state after both
    does not depend on which came first. *)
Theorem updateQuantity_commute
    (st : State) (id1 q1 id2 q2 : Z) :
  id1 ≠ id2 →
  updateQuantity id1 q1 (updateQuantity id2 q2 st)
  = updateQuantity id2 q2 (updateQuantity id1 q1 st).
Proof.
  intros Hne.
  destruct (Z.lt_ge_cases q1 0) as [Hneg1 | Hq1].
  { rewrite !(updateQuantity_negative _ id1 q1) by assumption. reflexivity. }
  destruct (Z.lt_ge_cases q2 0) as [Hneg2 | Hq2].
  { rewrite !(updateQuantity_negative _ id2 q2) by assumption. reflexivity. }
  rewrite !updateQuantity_unfold by assumption.
  destruct st as [os sel items ld ild gen expanded changed modal].
  unfold setHasChanges, setOrderItems. simpl. f_equal.
  rewrite <- !list_fmap_compose. apply list_fmap_ext.
  intros i item _. simpl. apply updateItem_commute, Hne.
Qed.

Lemma updateQuantity_commute_witness :
  1 ≠ 2
  ∧ updateQuantity 1 9 (updateQuantity 2 4 Sample.loaded)
    = updateQuantity 2 4 (updateQuantity 1 9 Sample.loaded).
Proof.
  split; [discriminate |].
  apply (updateQuantity_commute Sample.loaded 1 9 2 4). discriminate.
Defined.

End EditAlgebra.

(** ** What every run of the screen keeps *)

Module ScreenInvariants.

Import OrderRecommendations QuantityEdits.

(** The totals of the sample screen stay consistent through an edit and a
    reload. *)
Lemma run_preserves_consistent_witness :
  Forall consistent (orderItems Sample.loaded)
  ∧ Forall consistent
      (orderItems
         (run [PlusClick Sample.cola;
               SelectOrder Sample.order1 (Some [Sample.cola; Sample.ramen])]
              Sample.loaded)).
Proof.
  assert (Hitems : Forall consistent [Sample.cola; Sample.ramen])
    by (repeat constructor).
  split; [exact Hitems |].
  apply (run_preserves_consistent
           [PlusClick Sample.cola;
            SelectOrder Sample.order1 (Some [Sample.cola; Sample.ramen])]
           Sample.loaded).
  - repeat constructor.
  - exact Hitems.
Defined.

Lemma updateItem_nonNegative itemId newQuantity item :
  0 ≤ newQuantity → nonNegative item →
  nonNegative (updateItem itemId newQuantity item).
Proof.
  intros Hq Hitem. unfold updateItem, nonNegative.
  destruct (OrderItem.id item =? itemId); [simpl; exact Hq | exact Hitem].
Qed.

Lemma updateQuantity_nonNegative st itemId newQuantity :
  Forall nonNegative (orderItems st) →
  Forall nonNegative (orderItems (updateQuantity itemId newQuantity st)).
Proof.
  intros Hall. destruct (Z.lt_ge_cases newQuantity 0) as [Hneg | Hq].
  - rewrite updateQuantity_negative by assumption. exact Hall.
  - rewrite updateQuantity_items by assumption.
    apply Forall_fmap. eapply Forall_impl; [exact Hall |].
    intros item Hitem. apply updateItem_nonNegative; assumption.
Qed.

Lemma step_keeps_quantities_nonNegative e st :
  Forall nonNegative (itemsFromServer e) →
  Forall nonNegative (orderItems st) →
  Forall nonNegative (orderItems (step e st)).
Proof.
  intros Hserver Hall. destruct e; simpl in *;
    try (apply updateQuantity_nonNegative; exact Hall);
    try exact Hall.
  - destruct resp; exact Hall.
  - destruct resp; [exact Hserver | constructor].
  - unfold saveQuantityChanges.
    destruct (selectedOrderId st) as [selected |]; [| exact Hall].
    destruct (Js.falsy (Some selected)); [exact Hall |].
    destruct putsOk; [| exact Hall].
    destruct itemsResp, ordersResp; simpl; first [exact Hserver | constructor].
  - destruct ok as [[|] |]; try exact Hall. destruct ordersResp; exact Hall.
  - unfold handleExecuteClick. destruct (hasChanges st); exact Hall.
  - unfold executeOrder. destruct (Js.falsy (selectedOrderId st)); [exact Hall |].
    destruct ok; [| exact Hall]. destruct ordersResp; exact Hall.
Qed.

(** X5.  The screen never holds a negative order quantity: if the items the
    server sends have non-negative quantities, then so have the items shown
    after any run of the handlers (minus stops at zero, a negative number
    typed into the field is dropped, text that is not a number becomes
    zero). *)
Theorem run_keeps_quantities_nonNegative
    (evs : list Event) (st : State) :
  Forall (fun e => Forall nonNegative (itemsFromServer e)) evs →
  Forall nonNegative (orderItems st) →
  Forall nonNegative (orderItems (run evs st)).
Proof.
  revert st. induction evs as [| e evs IH]; intros st Hevs Hall.
  - exact Hall.
  - inversion Hevs as [| ? ? He Htail]; subst. simpl.
    apply IH; [exact Htail |].
    apply step_keeps_quantities_nonNegative; assumption.
Qed.

Lemma run_keeps_quantities_nonNegative_witness :
  Forall nonNegative (orderItems Sample.loaded)
  ∧ Forall nonNegative
      (orderItems
         (run [QuantityChange Sample.cola "0"; MinusClick Sample.cola;
               QuantityChange Sample.ramen "-4";
               QuantityChange Sample.ramen "abc"]
              Sample.loaded)).
Proof.
  assert (Hitems : Forall nonNegative (orderItems Sample.loaded)).
  { repeat constructor; unfold nonNegative; simpl; lia. }
  split; [exact Hitems |].
  apply (run_keeps_quantities_nonNegative
           [QuantityChange Sample.cola "0"; MinusClick Sample.cola;
            QuantityChange Sample.ramen "-4";
            QuantityChange Sample.ramen "abc"]
           Sample.loaded).
  - repeat constructor.
  - exact Hitems.
Defined.

End ScreenInvariants.

(** ** The plus and minus buttons *)

Module PlusMinus.

Import OrderRecommendations QuantityEdits EditAlgebra.





End PlusMinus.

(** ** Selecting, saving and executing a recommendation *)

Module ExecutePath.

Import OrderRecommendations QuantityEdits.

Lemma find_by_id (os : list OrderRecommendation.t) order :
  order ∈ os →
  is_Some (List.find
             (fun o => OrderRecommendation.id o =? OrderRecommendation.id order)
             os).
Proof.
  induction 1 as [order os | order other os _ IH]; simpl.
  - rewrite Z.eqb_refl. eexists. reflexivity.
  - destruct (OrderRecommendation.id other =? OrderRecommendation.id order);
      [eexists; reflexivity | exact IH].
Qed.

Lemma find_by_id_sound (os : list OrderRecommendation.t) sel o :
  List.find (fun o => OrderRecommendation.id o =? sel) os = Some o →
  o ∈ os ∧ OrderRecommendation.id o = sel.
Proof.
  induction os as [| first rest IH]; simpl; [discriminate |].
  destruct (Z.eqb_spec (OrderRecommendation.id first) sel) as [Hid | Hid].
  - intros [= <-]. split; [constructor | exact Hid].
  - intros Hfind. destruct (IH Hfind) as [Hin Hsel].
    split; [constructor; exact Hin | exact Hsel].
Qed.

Lemma selectedOrder_sound st o :
  selectedOrder st = Some o →
  o ∈ orders st ∧ selectedOrderId st = Some (OrderRecommendation.id o).
Proof.
  unfold selectedOrder. destruct (selectedOrderId st) as [sel |];
    [| discriminate].
  intros Hfind. destruct (find_by_id_sound _ _ _ Hfind) as [Hin Hid].
  split; [exact Hin | rewrite Hid; reflexivity].
Qed.

Lemma falsy_nonzero id : id ≠ 0 → Js.falsy (Some id) = false.
Proof. intros Hid. simpl. apply Z.eqb_neq, Hid. Qed.

(** X8.  When the items of a listed recommendation cannot be fetched, the
    recommendation is selected all the same with an empty item list and a
    total of 0, nothing is marked as changed, and the execute button and
    its confirmation are available: the recommendation can be executed
    from a screen that shows none of its items. *)
Theorem failed_item_load_leaves_order_executable
    (st : State) (order : OrderRecommendation.t) (ok : bool)
    (ordersResp : option (list OrderRecommendation.t)) :
  loading st = false →
  order ∈ orders st →
  OrderRecommendation.id order ≠ 0 →
  let st1 := loadOrderItems (OrderRecommendation.id order) None st in
  orderItems st1 = []
  ∧ totalCost st1 = 0
  ∧ itemCount st1 = 0
  ∧ hasChanges st1 = false
  ∧ Enabled ExecuteClick st1
  ∧ Enabled (ConfirmExecute ok ordersResp) (handleExecuteClick st1)
  ∧ executePosted (ConfirmExecute ok ordersResp) (handleExecuteClick st1)
    = Some (OrderRecommendation.id order).
Proof.
  intros Hloading Hin Hid st1.
  assert (Hsel : is_Some (selectedOrder st1)).
  { unfold st1, selectedOrder. simpl. apply find_by_id, Hin. }
  assert (Hnonempty : orders st1 ≠ []).
  { unfold st1. simpl. intros Hnil. rewrite Hnil in Hin.
    apply elem_of_nil in Hin. exact Hin. }
  split_and!; try reflexivity.
  - repeat split; assumption.
  - split; [exact Hloading |].
    unfold executeModalShown. simpl.
    apply bool_decide_eq_true_2, Hsel.
  - simpl. unfold executeRequest. simpl.
    rewrite (proj2 (Z.eqb_neq _ _) Hid). reflexivity.
Qed.

Lemma failed_item_load_leaves_order_executable_witness :
  Sample.order1 ∈ orders Sample.edited
  ∧ orderItems (loadOrderItems 1 None Sample.edited) = []
  ∧ Enabled ExecuteClick (loadOrderItems 1 None Sample.edited)
  ∧ executePosted (ConfirmExecute true None)
      (handleExecuteClick (loadOrderItems 1 None Sample.edited))
    = Some 1.
Proof.
  assert (Hin : Sample.order1 ∈ orders Sample.edited) by constructor.
  split; [exact Hin |].
  pose proof (failed_item_load_leaves_order_executable
                Sample.edited Sample.order1 true None eq_refl Hin)
    as Hload.
  destruct Hload as (Hitems & _ & _ & _ & Hclick & _ & Hpost);
    [discriminate |].
  split; [exact Hitems |]. split; [exact Hclick | exact Hpost].
Defined.

(** X9.  A save whose requests all went through leaves the screen exactly
    as a refresh of the list followed by selecting the recommendation
    again: the items shown are the ones the server then returns, whatever
    was edited, and nothing is marked as changed. *)
Theorem save_is_refresh_then_reselect
    (st : State) (selected : Z)
    (ordersResp : option (list OrderRecommendation.t))
    (itemsResp : option (list OrderItem.t)) :
  selectedOrderId st = Some selected →
  selected ≠ 0 →
  saveQuantityChanges true ordersResp itemsResp st
  = loadOrderItems selected itemsResp (loadOrders ordersResp st)
  ∧ orderItems (saveQuantityChanges true ordersResp itemsResp st)
    = default [] itemsResp
  ∧ hasChanges (saveQuantityChanges true ordersResp itemsResp st) = false.
Proof.
  intros Hsel Hid. unfold saveQuantityChanges.
  rewrite Hsel, falsy_nonzero by exact Hid.
  destruct st as [os sel items ld ild gen expanded changed modal].
  destruct ordersResp, itemsResp; repeat split.
Qed.

Lemma save_is_refresh_then_reselect_witness :
  selectedOrderId Sample.edited = Some 1
  ∧ OrderItem.order_quantity <$> orderItems Sample.edited = [6; 2]
  ∧ orderItems
      (saveQuantityChanges true None (Some [Sample.cola; Sample.ramen])
         Sample.edited)
    = [Sample.cola; Sample.ramen]
  ∧ hasChanges
      (saveQuantityChanges true None (Some [Sample.cola; Sample.ramen])
         Sample.edited) = false.
Proof.
  split; [reflexivity |]. split; [reflexivity |].
  pose proof (save_is_refresh_then_reselect Sample.edited 1 None
                (Some [Sample.cola; Sample.ramen]) eq_refl)
    as Hsave.
  destruct Hsave as (_ & Hitems & Hflag); [discriminate |].
  split; [exact Hitems | exact Hflag].
Defined.

(** X10.  A recommendation whose id is 0 can be selected and its
    confirmation opened, but it can be neither executed nor saved: the
    handlers read the id 0 as "nothing selected", so the confirm button
    posts nothing and leaves the confirmation open, and a save returns
    without sending anything or clearing the changed mark. *)
Theorem order_zero_cannot_be_saved_or_executed
    (st : State) (order : OrderRecommendation.t)
    (itemsResp : option (list OrderItem.t)) (ok putsOk : bool)
    (ordersResp : option (list OrderRecommendation.t))
    (saveItems : option (list OrderItem.t)) :
  loading st = false →
  order ∈ orders st →
  OrderRecommendation.id order = 0 →
  let st1 := step (SelectOrder order itemsResp) st in
  let st2 := step ExecuteClick st1 in
  Enabled ExecuteClick st1
  ∧ Enabled (ConfirmExecute ok ordersResp) st2
  ∧ executePosted (ConfirmExecute ok ordersResp) st2 = None
  ∧ step (ConfirmExecute ok ordersResp) st2 = st2
  ∧ (∀ itemId newQuantity,
       step (Save putsOk ordersResp saveItems)
            (updateQuantity itemId newQuantity st1)
       = updateQuantity itemId newQuantity st1).
Proof.
  intros Hloading Hin Hid st1 st2.
  assert (Hsel : is_Some (selectedOrder st1)).
  { unfold st1, selectedOrder. simpl.
    destruct itemsResp; apply find_by_id, Hin. }
  assert (Hnonempty : orders st1 ≠ []).
  { unfold st1. simpl. intros Hnil.
    destruct itemsResp; simpl in Hnil; rewrite Hnil in Hin;
      apply elem_of_nil in Hin; exact Hin. }
  assert (Hloading1 : loading st1 = false).
  { unfold st1. simpl. destruct itemsResp; exact Hloading. }
  assert (Hflag : hasChanges st1 = false).
  { unfold st1. simpl. destruct itemsResp; reflexivity. }
  assert (Hid1 : selectedOrderId st1 = Some 0).
  { unfold st1. simpl. rewrite Hid. destruct itemsResp; reflexivity. }
  clearbody st1.
  assert (Hst2 : st2 = setShowExecuteModal true st1).
  { unfold st2. simpl. unfold handleExecuteClick. rewrite Hflag. reflexivity. }
  clearbody st2. subst st2.
  split_and!.
  - repeat split; assumption.
  - split; [exact Hloading1 |].
    unfold executeModalShown. simpl.
    apply bool_decide_eq_true_2, Hsel.
  - simpl. unfold executeRequest. simpl. rewrite Hid1. reflexivity.
  - simpl. unfold executeOrder. simpl. rewrite Hid1. reflexivity.
  - intros itemId newQuantity. simpl. unfold saveQuantityChanges.
    destruct (updateQuantity_frame_state st1 itemId newQuantity)
      as (_ & Hkeep & _).
    rewrite Hkeep, Hid1. reflexivity.
Qed.

Lemma order_zero_cannot_be_saved_or_executed_witness :
  Sample.order0 ∈ orders Sample.listed0
  ∧ executePosted (ConfirmExecute true None)
      (step ExecuteClick
         (step (SelectOrder Sample.order0 (Some [Sample.cola]))
               Sample.listed0))
    = None
  ∧ step (ConfirmExecute true None)
      (step ExecuteClick
         (step (SelectOrder Sample.order0 (Some [Sample.cola]))
               Sample.listed0))
    = step ExecuteClick
        (step (SelectOrder Sample.order0 (Some [Sample.cola]))
              Sample.listed0).
Proof.
  assert (Hin : Sample.order0 ∈ orders Sample.listed0) by constructor.
  split; [exact Hin |].
  pose proof (order_zero_cannot_be_saved_or_executed
                Sample.listed0 Sample.order0 (Some [Sample.cola])
                true true None None eq_refl Hin eq_refl)
    as (_ & _ & Hpost & Hstay & _).
  split; [exact Hpost | exact Hstay].
Defined.

(** The orders of the state after an event are the ones before it or the
    ones the event brought from the server. *)
Lemma orders_step e st :
  orders (step e st) = orders st
  ∨ ordersFromServer e = Some (orders (step e st)).
Proof.
  destruct e; simpl.
  - destruct resp; [right | left]; reflexivity.
  - left. destruct resp; reflexivity.
  - left. apply updateQuantity_frame_state.
  - left. apply updateQuantity_frame_state.
  - left. apply updateQuantity_frame_state.
  - left. reflexivity.
  - unfold saveQuantityChanges.
    destruct (selectedOrderId st) as [selected |]; [| left; reflexivity].
    destruct (Js.falsy (Some selected)); [left; reflexivity |].
    destruct putsOk; [| left; reflexivity].
    destruct ordersResp, itemsResp; simpl; first [right; reflexivity | left; reflexivity].
  - destruct ok as [[|] |]; try (left; reflexivity).
    destruct ordersResp; [right | left]; reflexivity.
  - left. unfold handleExecuteClick. destruct (hasChanges st); reflexivity.
  - unfold executeOrder.
    destruct (Js.falsy (selectedOrderId st)); [left; reflexivity |].
    destruct ok; [| left; reflexivity].
    destruct ordersResp; [right | left]; reflexivity.
  - left. reflexivity.
Qed.

(** A recommendation that is not in the list cannot be the target of the
    confirm button. *)
Lemma unlisted_not_posted e st rid :
  (∀ o, o ∈ orders st → OrderRecommendation.id o ≠ rid) →
  Enabled e st → executePosted e st ≠ Some rid.
Proof.
  intros Hunlisted Hen. destruct e; try discriminate.
  simpl in *. destruct Hen as [_ Hshown].
  unfold executeModalShown in Hshown.
  apply andb_true_iff in Hshown as [_ Hsel].
  apply bool_decide_eq_true_1 in Hsel as [o Ho].
  destruct (selectedOrder_sound st o Ho) as [Hin Hid].
  unfold executeRequest. rewrite Hid.
  destruct (Js.falsy (Some (OrderRecommendation.id o))); [discriminate |].
  intros [= Heq]. exact (Hunlisted o Hin Heq).
Qed.

(** X11.  Once a recommendation is not in the list of pending
    recommendations, and as long as the server does not list it again, no
    run of available handlers posts an execute request for it: after an
    execution the reloaded list no longer offers the recommendation, and
    the screen cannot execute it a second time. *)
Theorem unlisted_order_is_never_executed
    (rid : Z) (evs : list Event) (st : State) :
  (∀ o, o ∈ orders st → OrderRecommendation.id o ≠ rid) →
  Forall (fun e => ∀ data, ordersFromServer e = Some data →
                     ∀ o, o ∈ data → OrderRecommendation.id o ≠ rid) evs →
  Feasible evs st →
  rid ∉ executePosts evs st.
Proof.
  revert st. induction evs as [| e evs IH]; intros st Hunlisted Hevs Hrun.
  - apply not_elem_of_nil.
  - destruct Hrun as [Hen Hrest].
    inversion Hevs as [| ? ? He Htail]; subst.
    assert (Hnext : rid ∉ executePosts evs (step e st)).
    { apply IH; [| exact Htail | exact Hrest].
      destruct (orders_step e st) as [Hsame | Hnew].
      - rewrite Hsame. exact Hunlisted.
      - exact (He _ Hnew). }
    pose proof (unlisted_not_posted e st rid Hunlisted Hen) as Hpost.
    simpl. destruct (executePosted e st) as [id |]; [| exact Hnext].
    apply not_elem_of_cons. split; [congruence | exact Hnext].
Qed.

Lemma unlisted_order_is_never_executed_witness :
  orders Sample.executed1 = []
  ∧ executePosts
      [Refresh None; Generate (Some true) (Some [Sample.order2]);
       SelectOrder Sample.order2 None; ExecuteClick;
       ConfirmExecute true (Some [])]
      Sample.executed1
    = [2]
  ∧ 1 ∉ executePosts
          [Refresh None; Generate (Some true) (Some [Sample.order2]);
           SelectOrder Sample.order2 None; ExecuteClick;
           ConfirmExecute true (Some [])]
          Sample.executed1.
Proof.
  split; [reflexivity |]. split; [reflexivity |].
  apply (unlisted_order_is_never_executed 1).
  - intros o Hin. apply elem_of_nil in Hin. contradiction.
  - repeat constructor; simpl; intros data [= <-] o Hin;
      repeat (apply elem_of_cons in Hin as [-> | Hin]; [discriminate |]);
      apply elem_of_nil in Hin; contradiction.
  - repeat split; simpl;
      first [ reflexivity | discriminate | constructor
            | eexists; reflexivity ].
Defined.

(** X13.  The changed mark is tested when the confirmation is opened and
    not again when it is confirmed: an edit to a non-negative quantity made
    while the confirmation is showing marks the screen as changed but
    leaves the confirm button available, posting the same execute request
    as before the edit. *)
Theorem edit_keeps_confirmation_live
    (st : State) (itemId newQuantity : Z) (ok : bool)
    (ordersResp : option (list OrderRecommendation.t)) :
  Enabled (ConfirmExecute ok ordersResp) st →
  0 ≤ newQuantity →
  hasChanges (updateQuantity itemId newQuantity st) = true
  ∧ Enabled (ConfirmExecute ok ordersResp)
      (updateQuantity itemId newQuantity st)
  ∧ executePosted (ConfirmExecute ok ordersResp)
      (updateQuantity itemId newQuantity st)
    = executePosted (ConfirmExecute ok ordersResp) st.
Proof.
  intros [Hloading Hshown] Hq.
  destruct (updateQuantity_frame_state st itemId newQuantity)
    as (Horders & Hsel & _ & Hmodal & Hload & _).
  split; [apply updateQuantity_sets_hasChanges, Hq |].
  split.
  - split; [rewrite Hload; exact Hloading |].
    unfold executeModalShown, selectedOrder in *.
    rewrite Hmodal, Hsel, Horders. exact Hshown.
  - simpl. unfold executeRequest. rewrite Hsel. reflexivity.
Qed.

Lemma edit_keeps_confirmation_live_witness :
  Enabled (ConfirmExecute true None) (step ExecuteClick Sample.loaded)
  ∧ hasChanges (updateQuantity 1 9 (step ExecuteClick Sample.loaded)) = true
  ∧ executePosted (ConfirmExecute true None)
      (updateQuantity 1 9 (step ExecuteClick Sample.loaded))
    = Some 1.
Proof.
  assert (Hen : Enabled (ConfirmExecute true None)
                  (step ExecuteClick Sample.loaded))
    by (split; reflexivity).
  split; [exact Hen |].
  pose proof (edit_keeps_confirmation_live
                (step ExecuteClick Sample.loaded) 1 9 true None Hen)
    as Hedit.
  destruct Hedit as (Hflag & _ & Hpost); [lia |].
  split; [exact Hflag | exact Hpost].
Defined.

End ExecutePath.

(** ** Busy flags *)

Module BusyFlags.

Import OrderRecommendations QuantityEdits.

Lemma step_keeps_settled e st : settled st → settled (step e st).
Proof.
  intros (Hloading & Hitems & Hgen). destruct e; simpl.
  - destruct resp; repeat split; assumption.
  - destruct resp; repeat split; assumption.
  - destruct (updateQuantity_frame_state st (OrderItem.id item)
                (Z.max 0 (OrderItem.order_quantity item - 1)))
      as (_ & _ & _ & _ & H1 & H2 & H3).
    unfold settled, onMinusClick. rewrite H1, H2, H3. repeat split; assumption.
  - destruct (updateQuantity_frame_state st (OrderItem.id item)
                (Js.orZero (Js.parseInt value)))
      as (_ & _ & _ & _ & H1 & H2 & H3).
    unfold settled, onQuantityChange. rewrite H1, H2, H3.
    repeat split; assumption.
  - destruct (updateQuantity_frame_state st (OrderItem.id item)
                (OrderItem.order_quantity item + 1))
      as (_ & _ & _ & _ & H1 & H2 & H3).
    unfold settled, onPlusClick. rewrite H1, H2, H3. repeat split; assumption.
  - repeat split; assumption.
  - unfold saveQuantityChanges.
    destruct (selectedOrderId st) as [selected |];
      [| repeat split; assumption].
    destruct (Js.falsy (Some selected)); [repeat split; assumption |].
    destruct putsOk; [| repeat split; assumption].
    destruct ordersResp, itemsResp; repeat split; assumption.
  - destruct ok as [[|] |]; try (repeat split; assumption).
    destruct ordersResp; repeat split; assumption.
  - unfold handleExecuteClick.
    destruct (hasChanges st); repeat split; assumption.
  - unfold executeOrder.
    destruct (Js.falsy (selectedOrderId st)); [repeat split; assumption |].
    destruct ok; [| repeat split; assumption].
    destruct ordersResp; repeat split; assumption.
  - repeat split; assumption.
Qed.

Lemma run_keeps_settled evs st : settled st → settled (run evs st).
Proof.
  revert st. induction evs as [| e evs IH]; intros st Hst; simpl.
  - exact Hst.
  - apply IH, step_keeps_settled, Hst.
Qed.

(** X12.  Every handler releases its busy flag on every path: once the
    load that runs on mount has returned, with or without data, no run of
    handlers (whatever the server answers, failures included) ends with the
    list spinner, the items spinner or the generate button still busy. *)
Theorem run_after_mount_is_settled
    (resp : option (list OrderRecommendation.t)) (evs : list Event) :
  settled (run (Refresh resp :: evs) initialState).
Proof.
  change (settled (run evs (step (Refresh resp) initialState))).
  apply run_keeps_settled.
  destruct resp; repeat split.
Qed.

End BusyFlags.

(** ** The dashboard *)

Module DashboardFacts.

Import Dashboard.



(** X15.  A row of the top products loses nothing of the trend: the
    percentage printed is never negative, and the trend is that percentage
    under the upward icon and its opposite under the downward icon. *)
Theorem product_trend_is_recoverable (p : Product) :
  (0 <= productTrendShown p)%Q
  ∧ (product_trend p
     == match productTrendIcon p with
        | up => productTrendShown p
        | down => - productTrendShown p
        end)%Q.
Proof.
  unfold productTrendShown, productTrendIcon.
  split; [apply Qabs_nonneg |].
  destruct (Qle_bool 0 (product_trend p)) eqn:Hsign.
  - apply Qle_bool_iff in Hsign. rewrite Qabs_pos by exact Hsign. reflexivity.
  - assert (Hneg : (product_trend p <= 0)%Q).
    { destruct (Qlt_le_dec (product_trend p) 0) as [Hlt | Hge].
      - apply Qlt_le_weak, Hlt.
      - apply Qle_bool_iff in Hge. congruence. }
    rewrite Qabs_neg by exact Hneg. rewrite Qopp_involutive. reflexivity.
Qed.

End DashboardFacts.

(** ** The chat *)

Module Chat.

Import ChatInterface.

Lemma filter_out_fresh (msgs : list Message) (m : Message) stamp :
  id m = stamp →
  Forall (fun m' => id m' ≠ stamp) msgs →
  filter (fun m' => id m' ≠ stamp) (msgs ++ [m]) = msgs.
Proof.
  intros Hid Hfresh. rewrite filter_app.
  rewrite filter_cons_False by (intros Hne; apply Hne, Hid).
  rewrite filter_nil, app_nil_r.
  induction Hfresh as [| m' msgs Hm' _ IH]; [reflexivity |].
  rewrite filter_cons_True by exact Hm'. rewrite IH. reflexivity.
Qed.

(** X17.  A question whose request fails leaves no trace in the
    conversation: if the input is not blank, no request is pending and no
    message on the screen has the id built for the question, the messages
    after the failed send are exactly the messages before it.  The input
    field is cleared all the same, so the text typed is lost. *)
Theorem failed_send_leaves_no_trace
    (stamp : string) (now : Z) (st : State) :
  Js.emptyString (Js.trim (input st)) = false →
  isLoading st = false →
  Forall (fun m => id m ≠ stamp) (messages st) →
  messages (handleSend stamp now None st) = messages st
  ∧ input (handleSend stamp now None st) = ""
  ∧ isLoading (handleSend stamp now None st) = false.
Proof.
  intros Hinput Hidle Hfresh. unfold handleSend.
  rewrite Hinput, Hidle. simpl.
  rewrite filter_out_fresh by (first [reflexivity | exact Hfresh]).
  repeat split.
Qed.

Lemma failed_send_leaves_no_trace_witness :
  messages (handleSend "1700000000000" 5 None
              (setInput "hello" (initialState 0)))
  = initialMessages 0
  ∧ input (handleSend "1700000000000" 5 None
             (setInput "hello" (initialState 0)))
    = "".
Proof.
  pose proof (failed_send_leaves_no_trace "1700000000000" 5
                (setInput "hello" (initialState 0)) eq_refl eq_refl)
    as Hsend.
  destruct Hsend as (Hmessages & Hinput & _).
  - repeat constructor. simpl. discriminate.
  - split; [exact Hmessages | exact Hinput].
Defined.

(** An input of white space only is not sent, whatever the white space:
    here a no-break space (U+00A0), an ideographic space (U+3000) and a
    blank.  The state, input field included, stays as it was. *)
Example blank_input_is_not_sent :
  let blank :=
    String.string_of_list_ascii
      (ascii_of_nat <$> [194; 160; 227; 128; 128; 32]%nat) in
  Js.trim blank = ""
  ∧ handleSend "1700000000000" 5 None (setInput blank (initialState 0))
    = setInput blank (initialState 0).
Proof. split; reflexivity. Qed.

(** When the id built for the question is the id of an earlier message, a
    failed send takes that message away as well. *)
Example failed_send_with_taken_id :
  messages (handleSend "1" 5 None (setInput "hello" (initialState 0))) = [].
Proof. reflexivity. Qed.

Lemma alternating_snoc (senders : list Sender) :
  alternating senders → alternating (senders ++ [user; ai]).
Proof.
  intros [n ->]. exists (S n). simpl. f_equal.
  induction n as [| n IH]; [reflexivity |].
  simpl. rewrite IH. reflexivity.
Qed.

Lemma step_keeps_alternating e st :
  match e with
  | Send stamp _ _ => Forall (fun m => id m ≠ stamp) (messages st)
  | Type_ _ => True
  end →
  alternating (sender <$> messages st) →
  alternating (sender <$> messages (step e st)).
Proof.
  intros Hfresh Halt. destruct e as [text | stamp now reply]; simpl.
  - exact Halt.
  - unfold handleSend.
    destruct (Js.emptyString (Js.trim (input st)) || isLoading st);
      [exact Halt |].
    destruct reply as [[[response replyStamp] replyTime] |]; simpl.
    + rewrite <- app_assoc, fmap_app. simpl. apply alternating_snoc, Halt.
    + rewrite filter_out_fresh by (first [reflexivity | exact Hfresh]).
      exact Halt.
Qed.

(** X18.  The conversation always reads greeting, question, answer,
    question, answer, ...: in every run in which each question gets an id
    that no message on the screen has, every question shown is followed by
    its answer, and a question that failed is not shown. *)
Theorem conversation_alternates
    (greeted : Z) (evs : list Event) :
  FreshStamps evs (initialState greeted) →
  alternating (sender <$> messages (run evs (initialState greeted))).
Proof.
  assert (Hstart : alternating (sender <$> messages (initialState greeted)))
    by (exists 0%nat; reflexivity).
  generalize dependent (initialState greeted).
  induction evs as [| e evs IH]; intros st Halt Hfresh; simpl.
  - exact Halt.
  - destruct Hfresh as [He Hrest].
    apply IH; [| exact Hrest]. apply step_keeps_alternating; assumption.
Qed.

Lemma conversation_alternates_witness :
  sender
    <$> messages
          (run [Type_ "stock?"; Send "1700000000000" 5 None;
                Type_ "stock?";
                Send "1700000000100" 6
                  (Some ("3 items are low", "1700000000900", 7))]
               (initialState 0))
  = [ai; user; ai]
  ∧ alternating
      (sender
         <$> messages
               (run [Type_ "stock?"; Send "1700000000000" 5 None;
                     Type_ "stock?";
                     Send "1700000000100" 6
                       (Some ("3 items are low", "1700000000900", 7))]
                    (initialState 0))).
Proof.
  split; [reflexivity |].
  apply (conversation_alternates 0).
  repeat split; repeat constructor; simpl; discriminate.
Defined.

End Chat.

(** ** The daily chart of the order history *)

Module DailyChart.

Import OrderHistory.

Lemma mathMax_spec (xs : list Z) (m : Z) :
  mathMax xs = Some m → Forall (fun x => x ≤ m) xs ∧ m ∈ xs.
Proof.
  revert m. induction xs as [| x xs IH]; intros m; simpl; [discriminate |].
  destruct (mathMax xs) as [m' |] eqn:Hrest.
  - intros [= <-]. destruct (IH m' eq_refl) as [Hle Hin]. split.
    + constructor; [lia |].
      eapply Forall_impl; [exact Hle |]. intros y Hy. simpl in Hy. lia.
    + destruct (Z.max_spec x m') as [[_ ->] | [_ ->]];
        [constructor; exact Hin | constructor].
  - intros [= <-]. destruct xs as [| y ys].
    + split; [repeat constructor; lia | constructor].
    + simpl in Hrest. destruct (mathMax ys); discriminate.
Qed.

Lemma quotient_bounds (c m : Z) :
  0 ≤ c → c ≤ m → 0 < m →
  (0 <= inject_Z c / inject_Z m * 100 <= 100)%Q.
Proof.
  intros Hc Hcm Hm. destruct m as [| p | p]; try lia.
  unfold Qle, Qdiv, Qmult, Qinv, inject_Z. simpl. split; nia.
Qed.

Lemma quotient_full (m : Z) :
  0 < m → (inject_Z m / inject_Z m * 100 == 100)%Q.
Proof.
  intros Hm. destruct m as [| p | p]; try lia.
  unfold Qeq, Qdiv, Qmult, Qinv, inject_Z. simpl. nia.
Qed.

(** X19.  The bars of the daily chart stay inside the chart: when no day
    has a negative cost, the height of every bar is between 0% and 100%,
    a day without cost gets height 0 and no minimum height, and as soon as
    one day has a cost some bar is exactly 100% high.  When every cost is
    zero nothing is divided and every bar is 0% high. *)
Theorem bar_heights_bounded
    (daily_data : list DailyData) (day : DailyData) :
  Forall (fun d => 0 ≤ cost d) daily_data →
  day ∈ daily_data →
  (0 <= heightPercent daily_data day <= 100)%Q
  ∧ (cost day = 0 →
     (heightPercent daily_data day == 0)%Q ∧ minHeight day = 0)
  ∧ (Exists (fun d => 0 < cost d) daily_data →
     ∃ top, top ∈ daily_data
            ∧ (heightPercent daily_data top == 100)%Q)
  ∧ (Forall (fun d => cost d = 0) daily_data →
     heightPercent daily_data day = 0%Q).
Proof.
  intros Hnonneg Hday. unfold heightPercent.
  destruct (mathMax (cost <$> daily_data)) as [m |] eqn:Hmax.
  2:{ destruct daily_data as [| d ds]; [apply elem_of_nil in Hday; contradiction |].
      rewrite fmap_cons in Hmax. unfold mathMax in Hmax.
      cbn [foldr] in Hmax. destruct (foldr _ _ _); discriminate. }
  destruct (mathMax_spec _ _ Hmax) as [Hle Hin].
  assert (Hdaycost : cost day ≤ m).
  { rewrite Forall_forall in Hle. apply Hle.
    apply list_elem_of_fmap. exists day. split; [reflexivity | exact Hday]. }
  assert (Hdaypos : 0 ≤ cost day).
  { rewrite Forall_forall in Hnonneg. apply Hnonneg, Hday. }
  destruct (Z.ltb_spec 0 m) as [Hm | Hm].
  - split; [apply quotient_bounds; assumption |].
    split.
    { intros Hzero. rewrite Hzero. split.
      - unfold Qdiv. rewrite !Qmult_0_l. reflexivity.
      - unfold minHeight. rewrite Hzero. reflexivity. }
    split.
    { intros _. apply list_elem_of_fmap in Hin as (top & Htop & Hin).
      exists top. split; [exact Hin |].
      rewrite <- Htop. apply quotient_full, Hm. }
    intros Hzero. exfalso.
    apply list_elem_of_fmap in Hin as (top & Htop & Hin).
    rewrite Forall_forall in Hzero. specialize (Hzero top Hin). lia.
  - split; [split; [apply Qle_refl | unfold Qle; simpl; lia] |].
    split.
    { intros Hzero. split; [reflexivity |].
      unfold minHeight. rewrite Hzero. reflexivity. }
    split; [| reflexivity].
    intros Hpos. exfalso. apply Exists_exists in Hpos as (d & Hd & Hdpos).
    assert (cost d ≤ m).
    { rewrite Forall_forall in Hle. apply Hle.
      apply list_elem_of_fmap. exists d. split; [reflexivity | exact Hd]. }
    lia.
Qed.

Lemma bar_heights_bounded_witness :
  Sample.halfDay ∈ [Sample.quietDay; Sample.busyDay; Sample.halfDay]
  ∧ (heightPercent [Sample.quietDay; Sample.busyDay; Sample.halfDay]
       Sample.halfDay == 50)%Q
  ∧ (0 <= heightPercent [Sample.quietDay; Sample.busyDay; Sample.halfDay]
            Sample.halfDay <= 100)%Q.
Proof.
  assert (Hin : Sample.halfDay
                ∈ [Sample.quietDay; Sample.busyDay; Sample.halfDay])
    by (repeat constructor).
  split; [exact Hin |]. split; [reflexivity |].
  apply (bar_heights_bounded
           [Sample.quietDay; Sample.busyDay; Sample.halfDay] Sample.halfDay);
    [| exact Hin].
  repeat constructor; simpl; lia.
Defined.

End DailyChart.
